(** * Verification of the change-detection core of monitor.py

    Shallow embedding of the stock classifier ([is_in_stock]), the
    transition policy and the run orchestration of [main], the snapshot
    writer [save_state], the two extractors, and the selector ranking of
    selector_inspector.py.

    Strings are Rocq strings holding the UTF-8 bytes of the Python text.
    The classifier decodes them into code points ([utf8_decode]) and
    works on code points as CPython does: [str.lower] is the full Unicode
    lowercase mapping with the final-sigma rule ([py_lower]), [p in text]
    is the substring test on code points ([cp_contains]) and
    [str.strip() == ""] holds when every code point satisfies
    [Py_UNICODE_ISSPACE] ([strip_empty]). The tables are those of the
    Unicode database of CPython 3.11 (Unicode 14.0). *)

From Stdlib Require Import String Ascii List Bool Arith ZArith Lia.
From stdpp Require Import base gmap strings list.
Import ListNotations.


(* ------------------------------------------------------------------ *)
(** ** Text: code points, [str.lower], [p in text], [str.strip()]       *)

(** Full lowercase mapping of every code point whose lowercase differs from
    itself, except U+03A3 (handled by [final_sigma]): [chr(c).lower()]. *)
Definition lower_table : list (Z * list Z) := [
  (65, [97]); (66, [98]); (67, [99]); (68, [100]); (69, [101]); (70, [102]);
  (71, [103]); (72, [104]); (73, [105]); (74, [106]); (75, [107]); (76, [108]);
  (77, [109]); (78, [110]); (79, [111]); (80, [112]); (81, [113]); (82, [114]);
  (83, [115]); (84, [116]); (85, [117]); (86, [118]); (87, [119]); (88, [120]);
  (89, [121]); (90, [122]); (192, [224]); (193, [225]); (194, [226]);
  (195, [227]); (196, [228]); (197, [229]); (198, [230]); (199, [231]);
  (200, [232]); (201, [233]); (202, [234]); (203, [235]); (204, [236]);
  (205, [237]); (206, [238]); (207, [239]); (208, [240]); (209, [241]);
  (210, [242]); (211, [243]); (212, [244]); (213, [245]); (214, [246]);
  (216, [248]); (217, [249]); (218, [250]); (219, [251]); (220, [252]);
  (221, [253]); (222, [254]); (256, [257]); (258, [259]); (260, [261]);
  (262, [263]); (264, [265]); (266, [267]); (268, [269]); (270, [271]);
  (272, [273]); (274, [275]); (276, [277]); (278, [279]); (280, [281]);
  (282, [283]); (284, [285]); (286, [287]); (288, [289]); (290, [291]);
  (292, [293]); (294, [295]); (296, [297]); (298, [299]); (300, [301]);
  (302, [303]); (304, [105; 775]); (306, [307]); (308, [309]); (310, [311]);
  (313, [314]); (315, [316]); (317, [318]); (319, [320]); (321, [322]);
  (323, [324]); (325, [326]); (327, [328]); (330, [331]); (332, [333]);
  (334, [335]); (336, [337]); (338, [339]); (340, [341]); (342, [343]);
  (344, [345]); (346, [347]); (348, [349]); (350, [351]); (352, [353]);
  (354, [355]); (356, [357]); (358, [359]); (360, [361]); (362, [363]);
  (364, [365]); (366, [367]); (368, [369]); (370, [371]); (372, [373]);
  (374, [375]); (376, [255]); (377, [378]); (379, [380]); (381, [382]);
  (385, [595]); (386, [387]); (388, [389]); (390, [596]); (391, [392]);
  (393, [598]); (394, [599]); (395, [396]); (398, [477]); (399, [601]);
  (400, [603]); (401, [402]); (403, [608]); (404, [611]); (406, [617]);
  (407, [616]); (408, [409]); (412, [623]); (413, [626]); (415, [629]);
  (416, [417]); (418, [419]); (420, [421]); (422, [640]); (423, [424]);
  (425, [643]); (428, [429]); (430, [648]); (431, [432]); (433, [650]);
  (434, [651]); (435, [436]); (437, [438]); (439, [658]); (440, [441]);
  (444, [445]); (452, [454]); (453, [454]); (455, [457]); (456, [457]);
  (458, [460]); (459, [460]); (461, [462]); (463, [464]); (465, [466]);
  (467, [468]); (469, [470]); (471, [472]); (473, [474]); (475, [476]);
  (478, [479]); (480, [481]); (482, [483]); (484, [485]); (486, [487]);
  (488, [489]); (490, [491]); (492, [493]); (494, [495]); (497, [499]);
  (498, [499]); (500, [501]); (502, [405]); (503, [447]); (504, [505]);
  (506, [507]); (508, [509]); (510, [511]); (512, [513]); (514, [515]);
  (516, [517]); (518, [519]); (520, [521]); (522, [523]); (524, [525]);
  (526, [527]); (528, [529]); (530, [531]); (532, [533]); (534, [535]);
  (536, [537]); (538, [539]); (540, [541]); (542, [543]); (544, [414]);
  (546, [547]); (548, [549]); (550, [551]); (552, [553]); (554, [555]);
  (556, [557]); (558, [559]); (560, [561]); (562, [563]); (570, [11365]);
  (571, [572]); (573, [410]); (574, [11366]); (577, [578]); (579, [384]);
  (580, [649]); (581, [652]); (582, [583]); (584, [585]); (586, [587]);
  (588, [589]); (590, [591]); (880, [881]); (882, [883]); (886, [887]);
  (895, [1011]); (902, [940]); (904, [941]); (905, [942]); (906, [943]);
  (908, [972]); (910, [973]); (911, [974]); (913, [945]); (914, [946]);
  (915, [947]); (916, [948]); (917, [949]); (918, [950]); (919, [951]);
  (920, [952]); (921, [953]); (922, [954]); (923, [955]); (924, [956]);
  (925, [957]); (926, [958]); (927, [959]); (928, [960]); (929, [961]);
  (932, [964]); (933, [965]); (934, [966]); (935, [967]); (936, [968]);
  (937, [969]); (938, [970]); (939, [971]); (975, [983]); (984, [985]);
  (986, [987]); (988, [989]); (990, [991]); (992, [993]); (994, [995]);
  (996, [997]); (998, [999]); (1000, [1001]); (1002, [1003]); (1004, [1005]);
  (1006, [1007]); (1012, [952]); (1015, [1016]); (1017, [1010]); (1018, [1019]);
  (1021, [891]); (1022, [892]); (1023, [893]); (1024, [1104]); (1025, [1105]);
  (1026, [1106]); (1027, [1107]); (1028, [1108]); (1029, [1109]);
  (1030, [1110]); (1031, [1111]); (1032, [1112]); (1033, [1113]);
  (1034, [1114]); (1035, [1115]); (1036, [1116]); (1037, [1117]);
  (1038, [1118]); (1039, [1119]); (1040, [1072]); (1041, [1073]);
  (1042, [1074]); (1043, [1075]); (1044, [1076]); (1045, [1077]);
  (1046, [1078]); (1047, [1079]); (1048, [1080]); (1049, [1081]);
  (1050, [1082]); (1051, [1083]); (1052, [1084]); (1053, [1085]);
  (1054, [1086]); (1055, [1087]); (1056, [1088]); (1057, [1089]);
  (1058, [1090]); (1059, [1091]); (1060, [1092]); (1061, [1093]);
  (1062, [1094]); (1063, [1095]); (1064, [1096]); (1065, [1097]);
  (1066, [1098]); (1067, [1099]); (1068, [1100]); (1069, [1101]);
  (1070, [1102]); (1071, [1103]); (1120, [1121]); (1122, [1123]);
  (1124, [1125]); (1126, [1127]); (1128, [1129]); (1130, [1131]);
  (1132, [1133]); (1134, [1135]); (1136, [1137]); (1138, [1139]);
  (1140, [1141]); (1142, [1143]); (1144, [1145]); (1146, [1147]);
  (1148, [1149]); (1150, [1151]); (1152, [1153]); (1162, [1163]);
  (1164, [1165]); (1166, [1167]); (1168, [1169]); (1170, [1171]);
  (1172, [1173]); (1174, [1175]); (1176, [1177]); (1178, [1179]);
  (1180, [1181]); (1182, [1183]); (1184, [1185]); (1186, [1187]);
  (1188, [1189]); (1190, [1191]); (1192, [1193]); (1194, [1195]);
  (1196, [1197]); (1198, [1199]); (1200, [1201]); (1202, [1203]);
  (1204, [1205]); (1206, [1207]); (1208, [1209]); (1210, [1211]);
  (1212, [1213]); (1214, [1215]); (1216, [1231]); (1217, [1218]);
  (1219, [1220]); (1221, [1222]); (1223, [1224]); (1225, [1226]);
  (1227, [1228]); (1229, [1230]); (1232, [1233]); (1234, [1235]);
  (1236, [1237]); (1238, [1239]); (1240, [1241]); (1242, [1243]);
  (1244, [1245]); (1246, [1247]); (1248, [1249]); (1250, [1251]);
  (1252, [1253]); (1254, [1255]); (1256, [1257]); (1258, [1259]);
  (1260, [1261]); (1262, [1263]); (1264, [1265]); (1266, [1267]);
  (1268, [1269]); (1270, [1271]); (1272, [1273]); (1274, [1275]);
  (1276, [1277]); (1278, [1279]); (1280, [1281]); (1282, [1283]);
  (1284, [1285]); (1286, [1287]); (1288, [1289]); (1290, [1291]);
  (1292, [1293]); (1294, [1295]); (1296, [1297]); (1298, [1299]);
  (1300, [1301]); (1302, [1303]); (1304, [1305]); (1306, [1307]);
  (1308, [1309]); (1310, [1311]); (1312, [1313]); (1314, [1315]);
  (1316, [1317]); (1318, [1319]); (1320, [1321]); (1322, [1323]);
  (1324, [1325]); (1326, [1327]); (1329, [1377]); (1330, [1378]);
  (1331, [1379]); (1332, [1380]); (1333, [1381]); (1334, [1382]);
  (1335, [1383]); (1336, [1384]); (1337, [1385]); (1338, [1386]);
  (1339, [1387]); (1340, [1388]); (1341, [1389]); (1342, [1390]);
  (1343, [1391]); (1344, [1392]); (1345, [1393]); (1346, [1394]);
  (1347, [1395]); (1348, [1396]); (1349, [1397]); (1350, [1398]);
  (1351, [1399]); (1352, [1400]); (1353, [1401]); (1354, [1402]);
  (1355, [1403]); (1356, [1404]); (1357, [1405]); (1358, [1406]);
  (1359, [1407]); (1360, [1408]); (1361, [1409]); (1362, [1410]);
  (1363, [1411]); (1364, [1412]); (1365, [1413]); (1366, [1414]);
  (4256, [11520]); (4257, [11521]); (4258, [11522]); (4259, [11523]);
  (4260, [11524]); (4261, [11525]); (4262, [11526]); (4263, [11527]);
  (4264, [11528]); (4265, [11529]); (4266, [11530]); (4267, [11531]);
  (4268, [11532]); (4269, [11533]); (4270, [11534]); (4271, [11535]);
  (4272, [11536]); (4273, [11537]); (4274, [11538]); (4275, [11539]);
  (4276, [11540]); (4277, [11541]); (4278, [11542]); (4279, [11543]);
  (4280, [11544]); (4281, [11545]); (4282, [11546]); (4283, [11547]);
  (4284, [11548]); (4285, [11549]); (4286, [11550]); (4287, [11551]);
  (4288, [11552]); (4289, [11553]); (4290, [11554]); (4291, [11555]);
  (4292, [11556]); (4293, [11557]); (4295, [11559]); (4301, [11565]);
  (5024, [43888]); (5025, [43889]); (5026, [43890]); (5027, [43891]);
  (5028, [43892]); (5029, [43893]); (5030, [43894]); (5031, [43895]);
  (5032, [43896]); (5033, [43897]); (5034, [43898]); (5035, [43899]);
  (5036, [43900]); (5037, [43901]); (5038, [43902]); (5039, [43903]);
  (5040, [43904]); (5041, [43905]); (5042, [43906]); (5043, [43907]);
  (5044, [43908]); (5045, [43909]); (5046, [43910]); (5047, [43911]);
  (5048, [43912]); (5049, [43913]); (5050, [43914]); (5051, [43915]);
  (5052, [43916]); (5053, [43917]); (5054, [43918]); (5055, [43919]);
  (5056, [43920]); (5057, [43921]); (5058, [43922]); (5059, [43923]);
  (5060, [43924]); (5061, [43925]); (5062, [43926]); (5063, [43927]);
  (5064, [43928]); (5065, [43929]); (5066, [43930]); (5067, [43931]);
  (5068, [43932]); (5069, [43933]); (5070, [43934]); (5071, [43935]);
  (5072, [43936]); (5073, [43937]); (5074, [43938]); (5075, [43939]);
  (5076, [43940]); (5077, [43941]); (5078, [43942]); (5079, [43943]);
  (5080, [43944]); (5081, [43945]); (5082, [43946]); (5083, [43947]);
  (5084, [43948]); (5085, [43949]); (5086, [43950]); (5087, [43951]);
  (5088, [43952]); (5089, [43953]); (5090, [43954]); (5091, [43955]);
  (5092, [43956]); (5093, [43957]); (5094, [43958]); (5095, [43959]);
  (5096, [43960]); (5097, [43961]); (5098, [43962]); (5099, [43963]);
  (5100, [43964]); (5101, [43965]); (5102, [43966]); (5103, [43967]);
  (5104, [5112]); (5105, [5113]); (5106, [5114]); (5107, [5115]);
  (5108, [5116]); (5109, [5117]); (7312, [4304]); (7313, [4305]);
  (7314, [4306]); (7315, [4307]); (7316, [4308]); (7317, [4309]);
  (7318, [4310]); (7319, [4311]); (7320, [4312]); (7321, [4313]);
  (7322, [4314]); (7323, [4315]); (7324, [4316]); (7325, [4317]);
  (7326, [4318]); (7327, [4319]); (7328, [4320]); (7329, [4321]);
  (7330, [4322]); (7331, [4323]); (7332, [4324]); (7333, [4325]);
  (7334, [4326]); (7335, [4327]); (7336, [4328]); (7337, [4329]);
  (7338, [4330]); (7339, [4331]); (7340, [4332]); (7341, [4333]);
  (7342, [4334]); (7343, [4335]); (7344, [4336]); (7345, [4337]);
  (7346, [4338]); (7347, [4339]); (7348, [4340]); (7349, [4341]);
  (7350, [4342]); (7351, [4343]); (7352, [4344]); (7353, [4345]);
  (7354, [4346]); (7357, [4349]); (7358, [4350]); (7359, [4351]);
  (7680, [7681]); (7682, [7683]); (7684, [7685]); (7686, [7687]);
  (7688, [7689]); (7690, [7691]); (7692, [7693]); (7694, [7695]);
  (7696, [7697]); (7698, [7699]); (7700, [7701]); (7702, [7703]);
  (7704, [7705]); (7706, [7707]); (7708, [7709]); (7710, [7711]);
  (7712, [7713]); (7714, [7715]); (7716, [7717]); (7718, [7719]);
  (7720, [7721]); (7722, [7723]); (7724, [7725]); (7726, [7727]);
  (7728, [7729]); (7730, [7731]); (7732, [7733]); (7734, [7735]);
  (7736, [7737]); (7738, [7739]); (7740, [7741]); (7742, [7743]);
  (7744, [7745]); (7746, [7747]); (7748, [7749]); (7750, [7751]);
  (7752, [7753]); (7754, [7755]); (7756, [7757]); (7758, [7759]);
  (7760, [7761]); (7762, [7763]); (7764, [7765]); (7766, [7767]);
  (7768, [7769]); (7770, [7771]); (7772, [7773]); (7774, [7775]);
  (7776, [7777]); (7778, [7779]); (7780, [7781]); (7782, [7783]);
  (7784, [7785]); (7786, [7787]); (7788, [7789]); (7790, [7791]);
  (7792, [7793]); (7794, [7795]); (7796, [7797]); (7798, [7799]);
  (7800, [7801]); (7802, [7803]); (7804, [7805]); (7806, [7807]);
  (7808, [7809]); (7810, [7811]); (7812, [7813]); (7814, [7815]);
  (7816, [7817]); (7818, [7819]); (7820, [7821]); (7822, [7823]);
  (7824, [7825]); (7826, [7827]); (7828, [7829]); (7838, [223]); (7840, [7841]);
  (7842, [7843]); (7844, [7845]); (7846, [7847]); (7848, [7849]);
  (7850, [7851]); (7852, [7853]); (7854, [7855]); (7856, [7857]);
  (7858, [7859]); (7860, [7861]); (7862, [7863]); (7864, [7865]);
  (7866, [7867]); (7868, [7869]); (7870, [7871]); (7872, [7873]);
  (7874, [7875]); (7876, [7877]); (7878, [7879]); (7880, [7881]);
  (7882, [7883]); (7884, [7885]); (7886, [7887]); (7888, [7889]);
  (7890, [7891]); (7892, [7893]); (7894, [7895]); (7896, [7897]);
  (7898, [7899]); (7900, [7901]); (7902, [7903]); (7904, [7905]);
  (7906, [7907]); (7908, [7909]); (7910, [7911]); (7912, [7913]);
  (7914, [7915]); (7916, [7917]); (7918, [7919]); (7920, [7921]);
  (7922, [7923]); (7924, [7925]); (7926, [7927]); (7928, [7929]);
  (7930, [7931]); (7932, [7933]); (7934, [7935]); (7944, [7936]);
  (7945, [7937]); (7946, [7938]); (7947, [7939]); (7948, [7940]);
  (7949, [7941]); (7950, [7942]); (7951, [7943]); (7960, [7952]);
  (7961, [7953]); (7962, [7954]); (7963, [7955]); (7964, [7956]);
  (7965, [7957]); (7976, [7968]); (7977, [7969]); (7978, [7970]);
  (7979, [7971]); (7980, [7972]); (7981, [7973]); (7982, [7974]);
  (7983, [7975]); (7992, [7984]); (7993, [7985]); (7994, [7986]);
  (7995, [7987]); (7996, [7988]); (7997, [7989]); (7998, [7990]);
  (7999, [7991]); (8008, [8000]); (8009, [8001]); (8010, [8002]);
  (8011, [8003]); (8012, [8004]); (8013, [8005]); (8025, [8017]);
  (8027, [8019]); (8029, [8021]); (8031, [8023]); (8040, [8032]);
  (8041, [8033]); (8042, [8034]); (8043, [8035]); (8044, [8036]);
  (8045, [8037]); (8046, [8038]); (8047, [8039]); (8072, [8064]);
  (8073, [8065]); (8074, [8066]); (8075, [8067]); (8076, [8068]);
  (8077, [8069]); (8078, [8070]); (8079, [8071]); (8088, [8080]);
  (8089, [8081]); (8090, [8082]); (8091, [8083]); (8092, [8084]);
  (8093, [8085]); (8094, [8086]); (8095, [8087]); (8104, [8096]);
  (8105, [8097]); (8106, [8098]); (8107, [8099]); (8108, [8100]);
  (8109, [8101]); (8110, [8102]); (8111, [8103]); (8120, [8112]);
  (8121, [8113]); (8122, [8048]); (8123, [8049]); (8124, [8115]);
  (8136, [8050]); (8137, [8051]); (8138, [8052]); (8139, [8053]);
  (8140, [8131]); (8152, [8144]); (8153, [8145]); (8154, [8054]);
  (8155, [8055]); (8168, [8160]); (8169, [8161]); (8170, [8058]);
  (8171, [8059]); (8172, [8165]); (8184, [8056]); (8185, [8057]);
  (8186, [8060]); (8187, [8061]); (8188, [8179]); (8486, [969]); (8490, [107]);
  (8491, [229]); (8498, [8526]); (8544, [8560]); (8545, [8561]); (8546, [8562]);
  (8547, [8563]); (8548, [8564]); (8549, [8565]); (8550, [8566]);
  (8551, [8567]); (8552, [8568]); (8553, [8569]); (8554, [8570]);
  (8555, [8571]); (8556, [8572]); (8557, [8573]); (8558, [8574]);
  (8559, [8575]); (8579, [8580]); (9398, [9424]); (9399, [9425]);
  (9400, [9426]); (9401, [9427]); (9402, [9428]); (9403, [9429]);
  (9404, [9430]); (9405, [9431]); (9406, [9432]); (9407, [9433]);
  (9408, [9434]); (9409, [9435]); (9410, [9436]); (9411, [9437]);
  (9412, [9438]); (9413, [9439]); (9414, [9440]); (9415, [9441]);
  (9416, [9442]); (9417, [9443]); (9418, [9444]); (9419, [9445]);
  (9420, [9446]); (9421, [9447]); (9422, [9448]); (9423, [9449]);
  (11264, [11312]); (11265, [11313]); (11266, [11314]); (11267, [11315]);
  (11268, [11316]); (11269, [11317]); (11270, [11318]); (11271, [11319]);
  (11272, [11320]); (11273, [11321]); (11274, [11322]); (11275, [11323]);
  (11276, [11324]); (11277, [11325]); (11278, [11326]); (11279, [11327]);
  (11280, [11328]); (11281, [11329]); (11282, [11330]); (11283, [11331]);
  (11284, [11332]); (11285, [11333]); (11286, [11334]); (11287, [11335]);
  (11288, [11336]); (11289, [11337]); (11290, [11338]); (11291, [11339]);
  (11292, [11340]); (11293, [11341]); (11294, [11342]); (11295, [11343]);
  (11296, [11344]); (11297, [11345]); (11298, [11346]); (11299, [11347]);
  (11300, [11348]); (11301, [11349]); (11302, [11350]); (11303, [11351]);
  (11304, [11352]); (11305, [11353]); (11306, [11354]); (11307, [11355]);
  (11308, [11356]); (11309, [11357]); (11310, [11358]); (11311, [11359]);
  (11360, [11361]); (11362, [619]); (11363, [7549]); (11364, [637]);
  (11367, [11368]); (11369, [11370]); (11371, [11372]); (11373, [593]);
  (11374, [625]); (11375, [592]); (11376, [594]); (11378, [11379]);
  (11381, [11382]); (11390, [575]); (11391, [576]); (11392, [11393]);
  (11394, [11395]); (11396, [11397]); (11398, [11399]); (11400, [11401]);
  (11402, [11403]); (11404, [11405]); (11406, [11407]); (11408, [11409]);
  (11410, [11411]); (11412, [11413]); (11414, [11415]); (11416, [11417]);
  (11418, [11419]); (11420, [11421]); (11422, [11423]); (11424, [11425]);
  (11426, [11427]); (11428, [11429]); (11430, [11431]); (11432, [11433]);
  (11434, [11435]); (11436, [11437]); (11438, [11439]); (11440, [11441]);
  (11442, [11443]); (11444, [11445]); (11446, [11447]); (11448, [11449]);
  (11450, [11451]); (11452, [11453]); (11454, [11455]); (11456, [11457]);
  (11458, [11459]); (11460, [11461]); (11462, [11463]); (11464, [11465]);
  (11466, [11467]); (11468, [11469]); (11470, [11471]); (11472, [11473]);
  (11474, [11475]); (11476, [11477]); (11478, [11479]); (11480, [11481]);
  (11482, [11483]); (11484, [11485]); (11486, [11487]); (11488, [11489]);
  (11490, [11491]); (11499, [11500]); (11501, [11502]); (11506, [11507]);
  (42560, [42561]); (42562, [42563]); (42564, [42565]); (42566, [42567]);
  (42568, [42569]); (42570, [42571]); (42572, [42573]); (42574, [42575]);
  (42576, [42577]); (42578, [42579]); (42580, [42581]); (42582, [42583]);
  (42584, [42585]); (42586, [42587]); (42588, [42589]); (42590, [42591]);
  (42592, [42593]); (42594, [42595]); (42596, [42597]); (42598, [42599]);
  (42600, [42601]); (42602, [42603]); (42604, [42605]); (42624, [42625]);
  (42626, [42627]); (42628, [42629]); (42630, [42631]); (42632, [42633]);
  (42634, [42635]); (42636, [42637]); (42638, [42639]); (42640, [42641]);
  (42642, [42643]); (42644, [42645]); (42646, [42647]); (42648, [42649]);
  (42650, [42651]); (42786, [42787]); (42788, [42789]); (42790, [42791]);
  (42792, [42793]); (42794, [42795]); (42796, [42797]); (42798, [42799]);
  (42802, [42803]); (42804, [42805]); (42806, [42807]); (42808, [42809]);
  (42810, [42811]); (42812, [42813]); (42814, [42815]); (42816, [42817]);
  (42818, [42819]); (42820, [42821]); (42822, [42823]); (42824, [42825]);
  (42826, [42827]); (42828, [42829]); (42830, [42831]); (42832, [42833]);
  (42834, [42835]); (42836, [42837]); (42838, [42839]); (42840, [42841]);
  (42842, [42843]); (42844, [42845]); (42846, [42847]); (42848, [42849]);
  (42850, [42851]); (42852, [42853]); (42854, [42855]); (42856, [42857]);
  (42858, [42859]); (42860, [42861]); (42862, [42863]); (42873, [42874]);
  (42875, [42876]); (42877, [7545]); (42878, [42879]); (42880, [42881]);
  (42882, [42883]); (42884, [42885]); (42886, [42887]); (42891, [42892]);
  (42893, [613]); (42896, [42897]); (42898, [42899]); (42902, [42903]);
  (42904, [42905]); (42906, [42907]); (42908, [42909]); (42910, [42911]);
  (42912, [42913]); (42914, [42915]); (42916, [42917]); (42918, [42919]);
  (42920, [42921]); (42922, [614]); (42923, [604]); (42924, [609]);
  (42925, [620]); (42926, [618]); (42928, [670]); (42929, [647]);
  (42930, [669]); (42931, [43859]); (42932, [42933]); (42934, [42935]);
  (42936, [42937]); (42938, [42939]); (42940, [42941]); (42942, [42943]);
  (42944, [42945]); (42946, [42947]); (42948, [42900]); (42949, [642]);
  (42950, [7566]); (42951, [42952]); (42953, [42954]); (42960, [42961]);
  (42966, [42967]); (42968, [42969]); (42997, [42998]); (65313, [65345]);
  (65314, [65346]); (65315, [65347]); (65316, [65348]); (65317, [65349]);
  (65318, [65350]); (65319, [65351]); (65320, [65352]); (65321, [65353]);
  (65322, [65354]); (65323, [65355]); (65324, [65356]); (65325, [65357]);
  (65326, [65358]); (65327, [65359]); (65328, [65360]); (65329, [65361]);
  (65330, [65362]); (65331, [65363]); (65332, [65364]); (65333, [65365]);
  (65334, [65366]); (65335, [65367]); (65336, [65368]); (65337, [65369]);
  (65338, [65370]); (66560, [66600]); (66561, [66601]); (66562, [66602]);
  (66563, [66603]); (66564, [66604]); (66565, [66605]); (66566, [66606]);
  (66567, [66607]); (66568, [66608]); (66569, [66609]); (66570, [66610]);
  (66571, [66611]); (66572, [66612]); (66573, [66613]); (66574, [66614]);
  (66575, [66615]); (66576, [66616]); (66577, [66617]); (66578, [66618]);
  (66579, [66619]); (66580, [66620]); (66581, [66621]); (66582, [66622]);
  (66583, [66623]); (66584, [66624]); (66585, [66625]); (66586, [66626]);
  (66587, [66627]); (66588, [66628]); (66589, [66629]); (66590, [66630]);
  (66591, [66631]); (66592, [66632]); (66593, [66633]); (66594, [66634]);
  (66595, [66635]); (66596, [66636]); (66597, [66637]); (66598, [66638]);
  (66599, [66639]); (66736, [66776]); (66737, [66777]); (66738, [66778]);
  (66739, [66779]); (66740, [66780]); (66741, [66781]); (66742, [66782]);
  (66743, [66783]); (66744, [66784]); (66745, [66785]); (66746, [66786]);
  (66747, [66787]); (66748, [66788]); (66749, [66789]); (66750, [66790]);
  (66751, [66791]); (66752, [66792]); (66753, [66793]); (66754, [66794]);
  (66755, [66795]); (66756, [66796]); (66757, [66797]); (66758, [66798]);
  (66759, [66799]); (66760, [66800]); (66761, [66801]); (66762, [66802]);
  (66763, [66803]); (66764, [66804]); (66765, [66805]); (66766, [66806]);
  (66767, [66807]); (66768, [66808]); (66769, [66809]); (66770, [66810]);
  (66771, [66811]); (66928, [66967]); (66929, [66968]); (66930, [66969]);
  (66931, [66970]); (66932, [66971]); (66933, [66972]); (66934, [66973]);
  (66935, [66974]); (66936, [66975]); (66937, [66976]); (66938, [66977]);
  (66940, [66979]); (66941, [66980]); (66942, [66981]); (66943, [66982]);
  (66944, [66983]); (66945, [66984]); (66946, [66985]); (66947, [66986]);
  (66948, [66987]); (66949, [66988]); (66950, [66989]); (66951, [66990]);
  (66952, [66991]); (66953, [66992]); (66954, [66993]); (66956, [66995]);
  (66957, [66996]); (66958, [66997]); (66959, [66998]); (66960, [66999]);
  (66961, [67000]); (66962, [67001]); (66964, [67003]); (66965, [67004]);
  (68736, [68800]); (68737, [68801]); (68738, [68802]); (68739, [68803]);
  (68740, [68804]); (68741, [68805]); (68742, [68806]); (68743, [68807]);
  (68744, [68808]); (68745, [68809]); (68746, [68810]); (68747, [68811]);
  (68748, [68812]); (68749, [68813]); (68750, [68814]); (68751, [68815]);
  (68752, [68816]); (68753, [68817]); (68754, [68818]); (68755, [68819]);
  (68756, [68820]); (68757, [68821]); (68758, [68822]); (68759, [68823]);
  (68760, [68824]); (68761, [68825]); (68762, [68826]); (68763, [68827]);
  (68764, [68828]); (68765, [68829]); (68766, [68830]); (68767, [68831]);
  (68768, [68832]); (68769, [68833]); (68770, [68834]); (68771, [68835]);
  (68772, [68836]); (68773, [68837]); (68774, [68838]); (68775, [68839]);
  (68776, [68840]); (68777, [68841]); (68778, [68842]); (68779, [68843]);
  (68780, [68844]); (68781, [68845]); (68782, [68846]); (68783, [68847]);
  (68784, [68848]); (68785, [68849]); (68786, [68850]); (71840, [71872]);
  (71841, [71873]); (71842, [71874]); (71843, [71875]); (71844, [71876]);
  (71845, [71877]); (71846, [71878]); (71847, [71879]); (71848, [71880]);
  (71849, [71881]); (71850, [71882]); (71851, [71883]); (71852, [71884]);
  (71853, [71885]); (71854, [71886]); (71855, [71887]); (71856, [71888]);
  (71857, [71889]); (71858, [71890]); (71859, [71891]); (71860, [71892]);
  (71861, [71893]); (71862, [71894]); (71863, [71895]); (71864, [71896]);
  (71865, [71897]); (71866, [71898]); (71867, [71899]); (71868, [71900]);
  (71869, [71901]); (71870, [71902]); (71871, [71903]); (93760, [93792]);
  (93761, [93793]); (93762, [93794]); (93763, [93795]); (93764, [93796]);
  (93765, [93797]); (93766, [93798]); (93767, [93799]); (93768, [93800]);
  (93769, [93801]); (93770, [93802]); (93771, [93803]); (93772, [93804]);
  (93773, [93805]); (93774, [93806]); (93775, [93807]); (93776, [93808]);
  (93777, [93809]); (93778, [93810]); (93779, [93811]); (93780, [93812]);
  (93781, [93813]); (93782, [93814]); (93783, [93815]); (93784, [93816]);
  (93785, [93817]); (93786, [93818]); (93787, [93819]); (93788, [93820]);
  (93789, [93821]); (93790, [93822]); (93791, [93823]); (125184, [125218]);
  (125185, [125219]); (125186, [125220]); (125187, [125221]);
  (125188, [125222]); (125189, [125223]); (125190, [125224]);
  (125191, [125225]); (125192, [125226]); (125193, [125227]);
  (125194, [125228]); (125195, [125229]); (125196, [125230]);
  (125197, [125231]); (125198, [125232]); (125199, [125233]);
  (125200, [125234]); (125201, [125235]); (125202, [125236]);
  (125203, [125237]); (125204, [125238]); (125205, [125239]);
  (125206, [125240]); (125207, [125241]); (125208, [125242]);
  (125209, [125243]); (125210, [125244]); (125211, [125245]);
  (125212, [125246]); (125213, [125247]); (125214, [125248]);
  (125215, [125249]); (125216, [125250]); (125217, [125251])
]%Z.

(** Code points with the Unicode property Cased ([_PyUnicode_IsCased]). *)
Definition cased_ranges : list (Z * Z) := [
  (65, 90); (97, 122); (170, 170); (181, 181); (186, 186); (192, 214);
  (216, 246); (248, 442); (444, 447); (452, 659); (661, 696); (704, 705);
  (736, 740); (837, 837); (880, 883); (886, 887); (890, 893); (895, 895);
  (902, 902); (904, 906); (908, 908); (910, 929); (931, 1013); (1015, 1153);
  (1162, 1327); (1329, 1366); (1376, 1416); (4256, 4293); (4295, 4295);
  (4301, 4301); (4304, 4346); (4349, 4351); (5024, 5109); (5112, 5117);
  (7296, 7304); (7312, 7354); (7357, 7359); (7424, 7615); (7680, 7957);
  (7960, 7965); (7968, 8005); (8008, 8013); (8016, 8023); (8025, 8025);
  (8027, 8027); (8029, 8029); (8031, 8061); (8064, 8116); (8118, 8124);
  (8126, 8126); (8130, 8132); (8134, 8140); (8144, 8147); (8150, 8155);
  (8160, 8172); (8178, 8180); (8182, 8188); (8305, 8305); (8319, 8319);
  (8336, 8348); (8450, 8450); (8455, 8455); (8458, 8467); (8469, 8469);
  (8473, 8477); (8484, 8484); (8486, 8486); (8488, 8488); (8490, 8493);
  (8495, 8500); (8505, 8505); (8508, 8511); (8517, 8521); (8526, 8526);
  (8544, 8575); (8579, 8580); (9398, 9449); (11264, 11492); (11499, 11502);
  (11506, 11507); (11520, 11557); (11559, 11559); (11565, 11565);
  (42560, 42605); (42624, 42653); (42786, 42887); (42891, 42894);
  (42896, 42954); (42960, 42961); (42963, 42963); (42965, 42969);
  (42997, 42998); (43000, 43002); (43824, 43866); (43868, 43880);
  (43888, 43967); (64256, 64262); (64275, 64279); (65313, 65338);
  (65345, 65370); (66560, 66639); (66736, 66771); (66776, 66811);
  (66928, 66938); (66940, 66954); (66956, 66962); (66964, 66965);
  (66967, 66977); (66979, 66993); (66995, 67001); (67003, 67004);
  (67456, 67456); (67459, 67461); (67463, 67504); (67506, 67514);
  (68736, 68786); (68800, 68850); (71840, 71903); (93760, 93823);
  (119808, 119892); (119894, 119964); (119966, 119967); (119970, 119970);
  (119973, 119974); (119977, 119980); (119982, 119993); (119995, 119995);
  (119997, 120003); (120005, 120069); (120071, 120074); (120077, 120084);
  (120086, 120092); (120094, 120121); (120123, 120126); (120128, 120132);
  (120134, 120134); (120138, 120144); (120146, 120485); (120488, 120512);
  (120514, 120538); (120540, 120570); (120572, 120596); (120598, 120628);
  (120630, 120654); (120656, 120686); (120688, 120712); (120714, 120744);
  (120746, 120770); (120772, 120779); (122624, 122633); (122635, 122654);
  (125184, 125251); (127280, 127305); (127312, 127337); (127344, 127369)
]%Z.

(** Code points with the Unicode property Case_Ignorable
    ([_PyUnicode_IsCaseIgnorable]). *)
Definition case_ignorable_ranges : list (Z * Z) := [
  (39, 39); (46, 46); (58, 58); (94, 94); (96, 96); (168, 168); (173, 173);
  (175, 175); (180, 180); (183, 184); (688, 879); (884, 885); (890, 890);
  (900, 901); (903, 903); (1155, 1161); (1369, 1369); (1375, 1375);
  (1425, 1469); (1471, 1471); (1473, 1474); (1476, 1477); (1479, 1479);
  (1524, 1524); (1536, 1541); (1552, 1562); (1564, 1564); (1600, 1600);
  (1611, 1631); (1648, 1648); (1750, 1757); (1759, 1768); (1770, 1773);
  (1807, 1807); (1809, 1809); (1840, 1866); (1958, 1968); (2027, 2037);
  (2042, 2042); (2045, 2045); (2070, 2093); (2137, 2139); (2184, 2184);
  (2192, 2193); (2200, 2207); (2249, 2306); (2362, 2362); (2364, 2364);
  (2369, 2376); (2381, 2381); (2385, 2391); (2402, 2403); (2417, 2417);
  (2433, 2433); (2492, 2492); (2497, 2500); (2509, 2509); (2530, 2531);
  (2558, 2558); (2561, 2562); (2620, 2620); (2625, 2626); (2631, 2632);
  (2635, 2637); (2641, 2641); (2672, 2673); (2677, 2677); (2689, 2690);
  (2748, 2748); (2753, 2757); (2759, 2760); (2765, 2765); (2786, 2787);
  (2810, 2815); (2817, 2817); (2876, 2876); (2879, 2879); (2881, 2884);
  (2893, 2893); (2901, 2902); (2914, 2915); (2946, 2946); (3008, 3008);
  (3021, 3021); (3072, 3072); (3076, 3076); (3132, 3132); (3134, 3136);
  (3142, 3144); (3146, 3149); (3157, 3158); (3170, 3171); (3201, 3201);
  (3260, 3260); (3263, 3263); (3270, 3270); (3276, 3277); (3298, 3299);
  (3328, 3329); (3387, 3388); (3393, 3396); (3405, 3405); (3426, 3427);
  (3457, 3457); (3530, 3530); (3538, 3540); (3542, 3542); (3633, 3633);
  (3636, 3642); (3654, 3662); (3761, 3761); (3764, 3772); (3782, 3782);
  (3784, 3789); (3864, 3865); (3893, 3893); (3895, 3895); (3897, 3897);
  (3953, 3966); (3968, 3972); (3974, 3975); (3981, 3991); (3993, 4028);
  (4038, 4038); (4141, 4144); (4146, 4151); (4153, 4154); (4157, 4158);
  (4184, 4185); (4190, 4192); (4209, 4212); (4226, 4226); (4229, 4230);
  (4237, 4237); (4253, 4253); (4348, 4348); (4957, 4959); (5906, 5908);
  (5938, 5939); (5970, 5971); (6002, 6003); (6068, 6069); (6071, 6077);
  (6086, 6086); (6089, 6099); (6103, 6103); (6109, 6109); (6155, 6159);
  (6211, 6211); (6277, 6278); (6313, 6313); (6432, 6434); (6439, 6440);
  (6450, 6450); (6457, 6459); (6679, 6680); (6683, 6683); (6742, 6742);
  (6744, 6750); (6752, 6752); (6754, 6754); (6757, 6764); (6771, 6780);
  (6783, 6783); (6823, 6823); (6832, 6862); (6912, 6915); (6964, 6964);
  (6966, 6970); (6972, 6972); (6978, 6978); (7019, 7027); (7040, 7041);
  (7074, 7077); (7080, 7081); (7083, 7085); (7142, 7142); (7144, 7145);
  (7149, 7149); (7151, 7153); (7212, 7219); (7222, 7223); (7288, 7293);
  (7376, 7378); (7380, 7392); (7394, 7400); (7405, 7405); (7412, 7412);
  (7416, 7417); (7468, 7530); (7544, 7544); (7579, 7679); (8125, 8125);
  (8127, 8129); (8141, 8143); (8157, 8159); (8173, 8175); (8189, 8190);
  (8203, 8207); (8216, 8217); (8228, 8228); (8231, 8231); (8234, 8238);
  (8288, 8292); (8294, 8303); (8305, 8305); (8319, 8319); (8336, 8348);
  (8400, 8432); (11388, 11389); (11503, 11505); (11631, 11631); (11647, 11647);
  (11744, 11775); (11823, 11823); (12293, 12293); (12330, 12333);
  (12337, 12341); (12347, 12347); (12441, 12446); (12540, 12542);
  (40981, 40981); (42232, 42237); (42508, 42508); (42607, 42610);
  (42612, 42621); (42623, 42623); (42652, 42655); (42736, 42737);
  (42752, 42785); (42864, 42864); (42888, 42890); (42994, 42996);
  (43000, 43001); (43010, 43010); (43014, 43014); (43019, 43019);
  (43045, 43046); (43052, 43052); (43204, 43205); (43232, 43249);
  (43263, 43263); (43302, 43309); (43335, 43345); (43392, 43394);
  (43443, 43443); (43446, 43449); (43452, 43453); (43471, 43471);
  (43493, 43494); (43561, 43566); (43569, 43570); (43573, 43574);
  (43587, 43587); (43596, 43596); (43632, 43632); (43644, 43644);
  (43696, 43696); (43698, 43700); (43703, 43704); (43710, 43711);
  (43713, 43713); (43741, 43741); (43756, 43757); (43763, 43764);
  (43766, 43766); (43867, 43871); (43881, 43883); (44005, 44005);
  (44008, 44008); (44013, 44013); (64286, 64286); (64434, 64450);
  (65024, 65039); (65043, 65043); (65056, 65071); (65106, 65106);
  (65109, 65109); (65279, 65279); (65287, 65287); (65294, 65294);
  (65306, 65306); (65342, 65342); (65344, 65344); (65392, 65392);
  (65438, 65439); (65507, 65507); (65529, 65531); (66045, 66045);
  (66272, 66272); (66422, 66426); (67456, 67461); (67463, 67504);
  (67506, 67514); (68097, 68099); (68101, 68102); (68108, 68111);
  (68152, 68154); (68159, 68159); (68325, 68326); (68900, 68903);
  (69291, 69292); (69446, 69456); (69506, 69509); (69633, 69633);
  (69688, 69702); (69744, 69744); (69747, 69748); (69759, 69761);
  (69811, 69814); (69817, 69818); (69821, 69821); (69826, 69826);
  (69837, 69837); (69888, 69890); (69927, 69931); (69933, 69940);
  (70003, 70003); (70016, 70017); (70070, 70078); (70089, 70092);
  (70095, 70095); (70191, 70193); (70196, 70196); (70198, 70199);
  (70206, 70206); (70367, 70367); (70371, 70378); (70400, 70401);
  (70459, 70460); (70464, 70464); (70502, 70508); (70512, 70516);
  (70712, 70719); (70722, 70724); (70726, 70726); (70750, 70750);
  (70835, 70840); (70842, 70842); (70847, 70848); (70850, 70851);
  (71090, 71093); (71100, 71101); (71103, 71104); (71132, 71133);
  (71219, 71226); (71229, 71229); (71231, 71232); (71339, 71339);
  (71341, 71341); (71344, 71349); (71351, 71351); (71453, 71455);
  (71458, 71461); (71463, 71467); (71727, 71735); (71737, 71738);
  (71995, 71996); (71998, 71998); (72003, 72003); (72148, 72151);
  (72154, 72155); (72160, 72160); (72193, 72202); (72243, 72248);
  (72251, 72254); (72263, 72263); (72273, 72278); (72281, 72283);
  (72330, 72342); (72344, 72345); (72752, 72758); (72760, 72765);
  (72767, 72767); (72850, 72871); (72874, 72880); (72882, 72883);
  (72885, 72886); (73009, 73014); (73018, 73018); (73020, 73021);
  (73023, 73029); (73031, 73031); (73104, 73105); (73109, 73109);
  (73111, 73111); (73459, 73460); (78896, 78904); (92912, 92916);
  (92976, 92982); (92992, 92995); (94031, 94031); (94095, 94111);
  (94176, 94177); (94179, 94180); (110576, 110579); (110581, 110587);
  (110589, 110590); (113821, 113822); (113824, 113827); (118528, 118573);
  (118576, 118598); (119143, 119145); (119155, 119170); (119173, 119179);
  (119210, 119213); (119362, 119364); (121344, 121398); (121403, 121452);
  (121461, 121461); (121476, 121476); (121499, 121503); (121505, 121519);
  (122880, 122886); (122888, 122904); (122907, 122913); (122915, 122916);
  (122918, 122922); (123184, 123197); (123566, 123566); (123628, 123631);
  (125136, 125142); (125252, 125259); (127995, 127999); (917505, 917505);
  (917536, 917631); (917760, 917999)
]%Z.

(** Code points removed by [str.strip()] ([Py_UNICODE_ISSPACE]). *)
Definition space_ranges : list (Z * Z) := [
  (9, 13); (28, 32); (133, 133); (160, 160); (5760, 5760); (8192, 8202);
  (8232, 8233); (8239, 8239); (8287, 8287); (12288, 12288)
]%Z.

(** A byte of a Rocq string as an integer. *)
Definition byte (c : ascii) : Z := Z.of_nat (nat_of_ascii c).

(** The code points of the text whose UTF-8 encoding is [s]. The texts
    of the program are decoded text (JSON, HTML), so they are valid
    UTF-8; a malformed lead byte is read as the code point of its value. *)
Fixpoint utf8_decode (s : string) : list Z :=
  match s with
  | EmptyString => []
  | String a s1 =>
      let b0 := byte a in
      if (b0 <? 128)%Z then b0 :: utf8_decode s1 else
      match s1 with
      | EmptyString => [b0]
      | String b s2 =>
          if ((192 <=? b0) && (b0 <? 224))%Z then
            (Z.land b0 31 * 64 + Z.land (byte b) 63)%Z :: utf8_decode s2 else
          match s2 with
          | EmptyString => b0 :: utf8_decode s1
          | String c s3 =>
              if ((224 <=? b0) && (b0 <? 240))%Z then
                (Z.land b0 15 * 4096 + Z.land (byte b) 63 * 64 + Z.land (byte c) 63)%Z
                  :: utf8_decode s3 else
              match s3 with
              | EmptyString => b0 :: utf8_decode s1
              | String d s4 =>
                  if ((240 <=? b0) && (b0 <? 248))%Z then
                    (Z.land b0 7 * 262144 + Z.land (byte b) 63 * 4096
                       + Z.land (byte c) 63 * 64 + Z.land (byte d) 63)%Z :: utf8_decode s4
                  else b0 :: utf8_decode s1
              end
          end
      end
  end.

Definition in_ranges (rs : list (Z * Z)) (c : Z) : bool :=
  existsb (fun r => (r.1 <=? c)%Z && (c <=? r.2)%Z) rs.

(** [Py_UNICODE_ISSPACE], [_PyUnicode_IsCased], [_PyUnicode_IsCaseIgnorable]. *)
Definition py_isspace (c : Z) : bool := in_ranges space_ranges c.

Definition is_cased (c : Z) : bool := in_ranges cased_ranges c.

Definition is_case_ignorable (c : Z) : bool := in_ranges case_ignorable_ranges c.

Fixpoint assoc_Z (c : Z) (t : list (Z * list Z)) : option (list Z) :=
  match t with
  | [] => None
  | (k, v) :: t' => if Z.eqb k c then Some v else assoc_Z c t'
  end.

(** [_PyUnicode_ToLowerFull(c)]: the full lowercase mapping. *)
Definition lower_full (c : Z) : list Z :=
  match assoc_Z c lower_table with Some l => l | None => [c] end.

(** The first code point of [l] that is not case-ignorable. *)
Fixpoint first_non_ignorable (l : list Z) : option Z :=
  match l with
  | [] => None
  | c :: l' => if is_case_ignorable c then first_non_ignorable l' else Some c
  end.

(** [handle_capital_sigma]: a U+03A3 is final when the nearest
    non-case-ignorable code point before it exists and is cased, and the
    nearest one after it is absent or not cased. [before] lists the code
    points before it, nearest first; [after] those after it. *)
Definition final_sigma (before after : list Z) : bool :=
  match first_non_ignorable before with
  | Some c =>
      is_cased c &&
      match first_non_ignorable after with Some d => negb (is_cased d) | None => true end
  | None => false
  end.

(** [lower_ucs4]: the lowercase of the code point [c] in its context. *)
Definition lower_at (before : list Z) (c : Z) (after : list Z) : list Z :=
  if Z.eqb c 931 then [if final_sigma before after then 962%Z else 963%Z] else lower_full c.

(** [do_lower]: each code point lowercased in the context of the
    original text; [before] holds the code points already read. *)
Fixpoint lower_go (before s : list Z) : list Z :=
  match s with
  | [] => []
  | c :: rest => lower_at before c rest ++ lower_go (c :: before) rest
  end.

(** [str.lower]. *)
Definition py_lower (s : list Z) : list Z := lower_go [] s.

(** [s.startswith(p)] on code points. *)
Fixpoint cp_prefix (p s : list Z) : bool :=
  match p, s with
  | [], _ => true
  | a :: p', b :: s' => Z.eqb a b && cp_prefix p' s'
  | _ :: _, [] => false
  end.

(** Python's [p in text]. *)
Fixpoint cp_contains (p t : list Z) : bool :=
  cp_prefix p t ||
  match t with
  | [] => false
  | _ :: t' => cp_contains p t'
  end.

(** [t.strip() == ""]: every code point is whitespace. *)
Definition strip_empty (t : list Z) : bool := forallb py_isspace t.

(** The lowercased code points of the Python text encoded by [s]. *)
Definition lower_str (s : string) : list Z := py_lower (utf8_decode s).

(* ------------------------------------------------------------------ *)
(** ** Configuration and raw items                                      *)

(** The keys of config.json read by [main] and [is_in_stock]; [None]
    is an absent key, resolved with the default of [cfg.get]. *)
Record config := {
  sold_out_patterns : option (list string);
  in_stock_patterns : option (list string);
  assume_in_stock_if_no_label : option bool;
  notify_new_in_stock : option bool;
  notify_new : option bool;
  discord_webhook_url : option string;
  mention_role : option string
}.

Definition default_sold_out_patterns : list string :=
  ["sold out"; "売り切れ"; "欠品"].

Definition default_in_stock_patterns : list string :=
  ["add to cart"; "カートに入れる"; "在庫あり"; "在庫"].

Definition get_default {A} (o : option A) (d : A) : A :=
  match o with Some a => a | None => d end.

(** A raw item as built by [parse_with_bs4] / [parse_with_playwright]:
    [{"id": url or name, "name": name or "unknown", "url", "image",
      "stock_text"}]. *)
Record raw_item := {
  it_id : string;
  it_name : string;
  it_url : option string;
  it_image : option string;
  it_stock_text : option string
}.

(* ------------------------------------------------------------------ *)
(** ** [is_in_stock]                                                    *)

(** [for p in patterns: if p in text: return v] *)
Fixpoint first_match (pats : list (list Z)) (text : list Z) : bool :=
  match pats with
  | [] => false
  | p :: ps => if cp_contains p text then true else first_match ps text
  end.

Definition is_in_stock (item : raw_item) (cfg : config) : bool :=
  let text := lower_str (get_default (it_stock_text item) "") in
  let sold := map lower_str (get_default (sold_out_patterns cfg) default_sold_out_patterns) in
  let instock := map lower_str (get_default (in_stock_patterns cfg) default_in_stock_patterns) in
  if first_match instock text then true
  else if first_match sold text then false
  else if strip_empty text then get_default (assume_in_stock_if_no_label cfg) false
  else false.

(* ------------------------------------------------------------------ *)
(** ** State records and the transition policy of [main]               *)

(** The three notification reasons of [main]:
    [Restock] is "売り切れ → 入荷 (restock)",
    [NewInStock] is "新着入荷 (new & in stock)",
    [NewItem] is "新着 (new item)". *)
Inductive reason := Restock | NewInStock | NewItem.

(** [new_state_items[item_id] = {"name", "url", "image", "stock_text",
    "in_stock", "last_seen"}] *)
Record item_record := {
  rec_name : string;
  rec_url : option string;
  rec_image : option string;
  rec_stock_text : option string;
  rec_in_stock : bool;
  rec_last_seen : string
}.

(** The state document: [{"items": ..., "last_checked": ...}]. *)
Record state_doc := {
  st_items : gmap string item_record;
  st_last_checked : option string
}.

(** [load_state]: a missing file gives [{"items": {}}]. *)
Definition load_state (disk : option state_doc) : state_doc :=
  match disk with
  | Some s => s
  | None => {| st_items := ∅; st_last_checked := None |}
  end.

(** [item_id = it.get("id") or it.get("name")] *)
Definition item_id (it : raw_item) : string :=
  if String.eqb (it_id it) "" then it_name it else it_id it.

(** The [reason] computed in the loop of [main] from [prev] and
    [in_stock]; [if prev:] is [Some], [prev_in_stock is False] is
    [rec_in_stock p = false]. *)
Definition decide (prev : option item_record) (in_stock : bool) (cfg : config)
    : option reason :=
  match prev with
  | Some p => if negb (rec_in_stock p) && in_stock then Some Restock else None
  | None =>
      if in_stock && get_default (notify_new_in_stock cfg) true then Some NewInStock
      else if get_default (notify_new cfg) false then Some NewItem
      else None
  end.

(** The record written for an item; [now] stands for
    [datetime.utcnow().isoformat() + "Z"]. *)
Definition mk_record (it : raw_item) (in_stock : bool) (now : string) : item_record :=
  {| rec_name := it_name it; rec_url := it_url it; rec_image := it_image it;
     rec_stock_text := it_stock_text it; rec_in_stock := in_stock;
     rec_last_seen := now |}.

(** The [for it in items] loop of [main]: [new_state_items] is threaded
    through, [prev_items] is read only; the notifications are returned
    in extraction order. *)
Fixpoint process_items (cfg : config) (now : string)
    (prev_items : gmap string item_record) (items : list raw_item)
    (new_items : gmap string item_record)
    : gmap string item_record * list (raw_item * reason) :=
  match items with
  | [] => (new_items, [])
  | it :: rest =>
      let id := item_id it in
      let in_stock := is_in_stock it cfg in
      let r := decide (prev_items !! id) in_stock cfg in
      let res := process_items cfg now prev_items rest
                   (<[id := mk_record it in_stock now]> new_items) in
      match r with
      | Some rs => (res.1, (it, rs) :: res.2)
      | None => res
      end
  end.

(* ------------------------------------------------------------------ *)
(** ** Run orchestration: [main]                                        *)

Inductive log_msg :=
  | MsgFetchFailed (cause : string)
  | MsgNoWebhook
  | MsgWebhookHttp (status : Z) (body : string)
  | MsgSendFailed (name : string).

(** Outcome of [send_discord_webhook] for one notification. *)
Inductive post_outcome :=
  | Delivered                                (* [raise_for_status()] passes *)
  | HttpError (status : Z) (body : string)   (* [raise_for_status()] raises *)
  | PostFailed.                              (* [requests.post] raises *)

(** Observable effects of a run, in order. *)
Inductive event :=
  | EvExtract                                   (* fetch + parse attempted *)
  | EvLogError (m : log_msg)
  | EvSave (s : state_doc)                      (* [save_state] *)
  | EvSend (it : raw_item) (r : reason) (o : post_outcome). (* webhook POST *)

(** Python truthiness of an optional string. *)
Definition truthy_str (o : option string) : option string :=
  match o with
  | Some s => if String.eqb s "" then None else Some s
  | None => None
  end.

(** [webhook = cfg.get("discord_webhook_url") or os.environ.get(...)],
    [None] when [not webhook]. *)
Definition webhook (cfg : config) (env : option string) : option string :=
  match truthy_str (discord_webhook_url cfg) with
  | Some w => Some w
  | None => truthy_str env
  end.

(** One iteration of the dispatch loop: the POST; on an HTTP error,
    [send_discord_webhook] logs "Failed to send webhook: %s %s" with the
    status and body before re-raising; any failure is then logged by
    [main] ([except Exception: LOG.exception(...)]). *)
Definition send_events (it : raw_item) (r : reason) (o : post_outcome) : list event :=
  EvSend it r o ::
  match o with
  | Delivered => []
  | HttpError status body =>
      [EvLogError (MsgWebhookHttp status body); EvLogError (MsgSendFailed (it_name it))]
  | PostFailed => [EvLogError (MsgSendFailed (it_name it))]
  end.

(** The dispatch loop: every notification is attempted, the outcome of
    the [i]-th POST is [deliver i], and the loop continues after a
    failure. *)
Fixpoint dispatch (i : nat) (notifs : list (raw_item * reason))
    (deliver : nat -> post_outcome) : list event :=
  match notifs with
  | [] => []
  | (it, r) :: rest => send_events it r (deliver i) ++ dispatch (S i) rest deliver
  end.

(** [main]: [extraction] is the outcome of the fetch and parse
    ([inl cause] when it raises), [disk] the snapshot at [state_file].
    Returns the events of the run and the snapshot on disk afterwards. *)
Definition main (cfg : config) (env : option string) (disk : option state_doc)
    (extraction : string + list raw_item) (now : string) (deliver : nat -> post_outcome)
    : list event * option state_doc :=
  let state := load_state disk in
  let prev_items := st_items state in
  match extraction with
  | inl cause => ([EvExtract; EvLogError (MsgFetchFailed cause)], disk)
  | inr items =>
      match webhook cfg env with
      | None => ([EvExtract; EvLogError MsgNoWebhook], disk)
      | Some _ =>
          let res := process_items cfg now prev_items items ∅ in
          let state' := {| st_items := res.1; st_last_checked := Some now |} in
          (EvExtract :: EvSave state' :: dispatch 0 res.2 deliver, Some state')
      end
  end.

(* ------------------------------------------------------------------ *)
(** ** [save_state] on a file system                                    *)

(** A file system maps paths to contents. *)
Abbreviation fs := (gmap string string).

(** Writing [data] into [tmp] opened with mode "w": truncation, then one
    byte appended per step (any buffering of [json.dump] is a coarser
    sequence of these states). [written] is what is already in [tmp]. *)
Fixpoint write_steps (f : fs) (tmp written data : string) : list fs :=
  match data with
  | EmptyString => []
  | String c rest =>
      let w := written +:+ String c EmptyString in
      <[tmp := w]> f :: write_steps (<[tmp := w]> f) tmp w rest
  end.

(** [os.replace(tmp, path)]: atomic rename. *)
Definition replace (f : fs) (tmp path : string) : fs :=
  match f !! tmp with
  | Some d => delete tmp (<[path := d]> f)
  | None => f
  end.

(** All file-system states of [save_state(state, path)] in order, from
    the initial one to the final one; [data] is [json.dump]'s output. *)
Definition save_state_trace (f : fs) (path data : string) : list fs :=
  let tmp := path +:+ ".tmp" in
  let f1 := <[tmp := ""]> f in
  let ws := write_steps f1 tmp "" data in
  let f2 := List.last ws f1 in
  f :: f1 :: ws ++ [replace f2 tmp path].
(** The item of [items] whose record ends up under identity [k]: the
    last one in extraction order with [item_id it = k]. *)
Fixpoint last_with (k : string) (items : list raw_item) : option raw_item :=
  match items with
  | [] => None
  | it :: rest =>
      match last_with k rest with
      | Some x => Some x
      | None => if String.eqb (item_id it) k then Some it else None
      end
  end.

(** The notifications the loop emits, item by item, each decided
    against [prev_items]. *)
Definition decisions (cfg : config) (prev_items : gmap string item_record)
    (items : list raw_item) : list (raw_item * reason) :=
  omap (fun it => pair it <$> decide (prev_items !! item_id it) (is_in_stock it cfg) cfg)
       items.

(** Sends recorded in a trace, with their outcome dropped. *)
Fixpoint sent (tr : list event) : list (raw_item * reason) :=
  match tr with
  | [] => []
  | EvSend it r _ :: tr' => (it, r) :: sent tr'
  | _ :: tr' => sent tr'
  end.

Definition is_save (e : event) : bool :=
  match e with EvSave _ => true | _ => false end.

Definition is_effect (e : event) : bool :=
  match e with EvSave _ | EvSend _ _ _ => true | _ => false end.

(* ------------------------------------------------------------------ *)
(** ** Extraction: [parse_with_bs4] and [parse_with_playwright]         *)

(** Python truthiness of an optional string ([None] and [""] are falsy). *)
Definition truthy (o : option string) : bool :=
  match o with Some s => negb (String.eqb s "") | None => false end.

(** [a or b] on optional strings. *)
Definition py_or (a b : option string) : option string :=
  if truthy a then a else b.

(** One selector lookup on an element: its result, or an exception. *)
Inductive lookup (A : Type) := Found (a : A) | Raises.
Arguments Found {A} a.
Arguments Raises {A}.

(** What one extractor reads from an element through each selector: the
    text of the matched node as that extractor's library renders it
    ([get_text(strip=True)] for bs4, [inner_text().strip()] for
    Playwright; [None]: no node matched), the [href], [data-href] and
    [data-url] attributes of the link node, the [src] and [data-src]
    attributes of the image node. The two libraries may render one DOM
    node differently, so an [element] describes an element as seen by
    one extractor. *)
Record element := {
  el_name : lookup (option string);
  el_url : lookup (option (option string * option string * option string));
  el_image : lookup (option (option string * option string));
  el_stock : lookup (option string)
}.

(** Which of [name_selector], [url_selector], [image_selector],
    [stock_selector] are set (truthy) in [cfg["selectors"]]. *)
Record selectors := {
  name_sel : bool; url_sel : bool; image_sel : bool; stock_sel : bool
}.

(** [if s.get(sel): v = ...]: [Some v] read (or [Some None] when the
    selector is unset), [None] when the lookup raises. *)
Definition read_field {A B} (configured : bool) (l : lookup A) (f : A -> option B)
    : option (option B) :=
  if configured then match l with Found a => Some (f a) | Raises => None end
  else Some None.

Definition url_of (a : option (option string * option string * option string)) : option string :=
  match a with Some (h, dh, du) => py_or h (py_or dh du) | None => None end.

Definition image_of (a : option (option string * option string)) : option string :=
  match a with Some (src, dsrc) => py_or src dsrc | None => None end.

(** [if not name and not url: continue] and the dict appended:
    [{"id": url or name, "name": name or "unknown", "url": url,
      "image": image, "stock_text": stock_text}]. *)
Definition build_item (name url image stock : option string) : option raw_item :=
  if negb (truthy name) && negb (truthy url) then None
  else Some {| it_id := if truthy url then get_default url "" else get_default name "";
               it_name := if truthy name then get_default name "" else "unknown";
               it_url := url; it_image := image; it_stock_text := stock |}.

Definition fields := (option string * option string * option string * option string)%type.

(** [parse_with_bs4]: the four lookups run in one [try]; an exception
    stops the lookups, is logged, and the fields read so far are kept. *)
Definition bs4_fields (sel : selectors) (el : element) : fields :=
  match read_field (name_sel sel) (el_name el) id with
  | None => (None, None, None, None)
  | Some n =>
    match read_field (url_sel sel) (el_url el) url_of with
    | None => (n, None, None, None)
    | Some u =>
      match read_field (image_sel sel) (el_image el) image_of with
      | None => (n, u, None, None)
      | Some i =>
        match read_field (stock_sel sel) (el_stock el) id with
        | None => (n, u, i, None)
        | Some st => (n, u, i, st)
        end
      end
    end
  end.

Definition parse_element_bs4 (sel : selectors) (el : element) : option raw_item :=
  let '(n, u, i, st) := bs4_fields sel el in build_item n u i st.

Definition parse_with_bs4 (sel : selectors) (els : list element) : list raw_item :=
  omap (parse_element_bs4 sel) els.

(** [parse_with_playwright]: the lookups and the append share one
    [try]; an exception skips the element. *)
Definition pw_fields (sel : selectors) (el : element) : option fields :=
  n ← read_field (name_sel sel) (el_name el) id;
  u ← read_field (url_sel sel) (el_url el) url_of;
  i ← read_field (image_sel sel) (el_image el) image_of;
  st ← read_field (stock_sel sel) (el_stock el) id;
  Some (n, u, i, st).

Definition parse_element_pw (sel : selectors) (el : element) : option raw_item :=
  match pw_fields sel el with
  | Some (n, u, i, st) => build_item n u i st
  | None => None
  end.

Definition parse_with_playwright (sel : selectors) (els : list element) : list raw_item :=
  omap (parse_element_pw sel) els.

(* ------------------------------------------------------------------ *)
(** ** selector_inspector.py                                           *)

(** Python text as its list of code points. *)
Definition truncated_marker : list nat :=
  map nat_of_ascii (list_ascii_of_string " ... [truncated]").

(** [short(s, n)] *)
Definition short (s : list nat) (n : nat) : list nat :=
  if length s <=? n then s else take n s ++ truncated_marker.

Definition candidates : list string :=
  ["ul.product-list li"; ".product-list .product-item"; ".products .product";
   ".product-box"; ".product-item"; ".product-card"; ".list .item";
   ".product-list li"; ".list-product .item"].

(** [guess_item_selectors(page)]: [query c] is the number of elements
    [page.query_selector_all(c)] returns, [None] when it raises. *)
Definition guess_item_selectors (query : string -> option nat) : list (string * nat) :=
  omap (fun c => match query c with
                 | Some n => if 1 <=? n then Some (c, n) else None
                 | None => None
                 end) candidates.

(** One insertion step of a stable sort on the key [-count]: the new
    element goes after every element whose count is not smaller. *)
Fixpoint insert_by_count (x : string * nat) (l : list (string * nat)) : list (string * nat) :=
  match l with
  | [] => [x]
  | y :: l' => if y.2 <? x.2 then x :: l else y :: insert_by_count x l'
  end.

(** [sorted(guesses, key=lambda x: -x[1])] (Python's sort is stable). *)
Definition sort_by_count (l : list (string * nat)) : list (string * nat) :=
  fold_left (fun acc x => insert_by_count x acc) l [].

(** [top = sorted(guesses, key=lambda x: -x[1])[0][0]] when [guesses]
    is non-empty. *)
Definition top_selector (guesses : list (string * nat)) : option string :=
  match sort_by_count guesses with
  | [] => None
  | (c, _) :: _ => Some c
  end.

(** Configuration with every key absent. *)
Definition cfg_empty : config := Build_config None None None None None None None.

(** Sample inputs: a prior snapshot holding item "a" sold out, and two
    extracted occurrences of it. *)
Definition sample_old : item_record :=
  {| rec_name := "A"; rec_url := Some "a"; rec_image := None;
     rec_stock_text := Some "sold out"; rec_in_stock := false;
     rec_last_seen := "t0" |}.

Definition sample_prev : gmap string item_record := <["a" := sample_old]> ∅.

Definition sample_a1 : raw_item := Build_raw_item "a" "A" (Some "a") None (Some "add to cart").

Definition sample_new : raw_item := Build_raw_item "b" "B" (Some "b") None None.

Definition sample_a0 : raw_item := Build_raw_item "a" "A" (Some "a") None (Some "sold out").

Definition sample_sel : selectors := Build_selectors true true true true.

Definition sample_el : element :=
  {| el_name := Found (Some "A"); el_url := Found (Some (Some "a", None, None));
     el_image := Found (Some (None, Some "img.png")); el_stock := Found (Some "在庫あり") |}.

Definition sample_partial_el : element :=
  {| el_name := Found (Some "A"); el_url := Raises; el_image := Found None;
     el_stock := Found None |}.

Definition cfg_webhook : config := Build_config None None (Some true) None None (Some "w") None.

(* ------------------------------------------------------------------ *)
(** ** Helper lemmas                                                    *)

Lemma append_assoc_str (a b c : string) : (a +:+ b) +:+ c = a +:+ (b +:+ c).
Proof. induction a as [|x a IH]; [reflexivity | exact (f_equal (String x) IH)]. Qed.

Lemma append_empty_r (a : string) : a +:+ "" = a.
Proof. induction a as [|x a IH]; [reflexivity | exact (f_equal (String x) IH)]. Qed.

Lemma length_append_str (a b : string) :
  String.length (a +:+ b) = (String.length a + String.length b)%nat.
Proof. induction a as [|x a IH]; [reflexivity | exact (f_equal S IH)]. Qed.

Lemma cp_prefix_spec (p s : list Z) : cp_prefix p s = true <-> exists b, s = p ++ b.
Proof.
  revert s; induction p as [|a p IH]; intros [|c s]; simpl.
  - split; eauto.
  - split; eauto.
  - split; [discriminate | intros [b Hb]; discriminate].
  - rewrite andb_true_iff, Z.eqb_eq, IH; split.
    + intros [-> [b ->]]; eauto.
    + intros [b Hb]; injection Hb as -> ->; eauto.
Qed.

Lemma cp_contains_spec (p t : list Z) :
  cp_contains p t = true <-> exists a b, t = a ++ p ++ b.
Proof.
  induction t as [|c t IH]; simpl; rewrite orb_true_iff, cp_prefix_spec.
  - split.
    + intros [[b Hb]|H]; [exists [], b; exact Hb | discriminate].
    + intros ([|x a] & b & H); [left; eauto | discriminate].
  - rewrite IH; split.
    + intros [[b Hb]|(a & b & ->)]; [exists [], b; exact Hb | exists (c :: a), b; reflexivity].
    + intros ([|x a] & b & H); [left; eauto|].
      injection H as -> ->; right; eauto.
Qed.

Lemma lower_go_app (before l1 l2 : list Z) :
  exists x, lower_go before (l1 ++ l2) = x ++ lower_go (rev l1 ++ before) l2.
Proof.
  revert before; induction l1 as [|c l1 IH]; intros before; simpl.
  - exists []; reflexivity.
  - destruct (IH (c :: before)) as [x Hx]; rewrite Hx, <- app_assoc; simpl.
    eexists; rewrite app_assoc; reflexivity.
Qed.

Lemma lower_go_nosigma (before p rest : list Z) :
  ~ In 931%Z p ->
  lower_go before (p ++ rest) = flat_map lower_full p ++ lower_go (rev p ++ before) rest.
Proof.
  revert before; induction p as [|c p IH]; intros before Hp; simpl; [reflexivity|].
  rewrite IH by (intros H; apply Hp; now right); rewrite <- !app_assoc; simpl; f_equal.
  unfold lower_at; destruct (Z.eqb_spec c 931); [subst; exfalso; apply Hp; now left | reflexivity].
Qed.

Lemma py_lower_nosigma (p : list Z) : ~ In 931%Z p -> py_lower p = flat_map lower_full p.
Proof.
  intros Hp; unfold py_lower; rewrite <- (app_nil_r p) at 1.
  rewrite lower_go_nosigma by exact Hp; apply app_nil_r.
Qed.

Lemma contains_lower_nosigma (p t : list Z) :
  ~ In 931%Z p -> cp_contains p t = true -> cp_contains (py_lower p) (py_lower t) = true.
Proof.
  intros Hp Hc; apply cp_contains_spec in Hc as (a & b & ->).
  apply cp_contains_spec; unfold py_lower.
  destruct (lower_go_app [] a (p ++ b)) as [x Hx]; rewrite Hx, lower_go_nosigma by exact Hp.
  rewrite <- py_lower_nosigma by exact Hp; eauto.
Qed.

Lemma assoc_Z_In (c : Z) (t : list (Z * list Z)) (v : list Z) :
  assoc_Z c t = Some v -> In (c, v) t.
Proof.
  induction t as [|[k w] t IH]; simpl; [discriminate|].
  destruct (Z.eqb_spec k c); [intros [= <-]; left; congruence | intros H; right; auto].
Qed.

Lemma lower_table_spaces :
  forallb (fun e => negb (py_isspace e.1) && negb (strip_empty e.2)) lower_table = true.
Proof. vm_compute; reflexivity. Qed.

Lemma strip_empty_lower_at (before : list Z) (c : Z) (after : list Z) :
  strip_empty (lower_at before c after) = py_isspace c.
Proof.
  unfold lower_at; destruct (Z.eqb_spec c 931) as [->|_].
  - destruct (final_sigma before after); reflexivity.
  - unfold lower_full; destruct (assoc_Z c lower_table) as [v|] eqn:E.
    + apply assoc_Z_In in E.
      pose proof lower_table_spaces as H; rewrite forallb_forall in H.
      specialize (H _ E); simpl in H; apply andb_prop in H as [H1 H2].
      apply negb_true_iff in H1, H2; congruence.
    + unfold strip_empty; simpl; apply andb_true_r.
Qed.

Lemma strip_empty_lower (t : list Z) : strip_empty (py_lower t) = strip_empty t.
Proof.
  unfold py_lower; generalize (@nil Z) as before.
  induction t as [|c t IH]; intros before; simpl; [reflexivity|].
  unfold strip_empty in *; rewrite forallb_app, IH.
  fold (strip_empty (lower_at before c t)); now rewrite strip_empty_lower_at.
Qed.

Lemma first_match_true (ps : list (list Z)) (t : list Z) :
  first_match ps t = true <-> exists p, In p ps /\ cp_contains p t = true.
Proof.
  induction ps as [|p ps IH]; simpl.
  - split; [discriminate | intros (? & [] & _)].
  - destruct (cp_contains p t) eqn:E.
    + split; [intros _; exists p; auto | reflexivity].
    + rewrite IH; split.
      * intros (q & Hq & Hc); eauto.
      * intros (q & [<-|Hq] & Hc); [congruence | eauto].
Qed.

Lemma first_match_false (ps : list (list Z)) (t : list Z) :
  first_match ps t = false <-> forall p, In p ps -> cp_contains p t = false.
Proof.
  split.
  - intros H p Hp; destruct (cp_contains p t) eqn:E; [|reflexivity].
    assert (first_match ps t = true) by (apply first_match_true; eauto).
    congruence.
  - intros H; destruct (first_match ps t) eqn:E; [|reflexivity].
    apply first_match_true in E as (p & Hp & Hc); rewrite H in Hc; auto.
Qed.

Lemma process_items_fst (cfg : config) (now : string)
    (prev_items : gmap string item_record) (items : list raw_item)
    (acc : gmap string item_record) (k : string) :
  (process_items cfg now prev_items items acc).1 !! k =
  match last_with k items with
  | Some it => Some (mk_record it (is_in_stock it cfg) now)
  | None => acc !! k
  end.
Proof.
  revert acc; induction items as [|it rest IH]; intros acc; simpl; [reflexivity|].
  transitivity ((process_items cfg now prev_items rest
                   (<[item_id it := mk_record it (is_in_stock it cfg) now]> acc)).1 !! k).
  { destruct (decide (prev_items !! item_id it) (is_in_stock it cfg) cfg); reflexivity. }
  rewrite IH.
  destruct (last_with k rest); [reflexivity|].
  destruct (String.eqb (item_id it) k) eqn:E.
  - apply String.eqb_eq in E; subst k. now rewrite lookup_insert_eq.
  - apply String.eqb_neq in E. now rewrite lookup_insert_ne.
Qed.

Lemma process_items_snd (cfg : config) (now : string)
    (prev_items : gmap string item_record) (items : list raw_item)
    (acc : gmap string item_record) :
  (process_items cfg now prev_items items acc).2 = decisions cfg prev_items items.
Proof.
  revert acc; induction items as [|it rest IH]; intros acc; simpl; [reflexivity|].
  unfold decisions in *; simpl.
  destruct (decide _ _ _); simpl; now rewrite IH.
Qed.

Lemma last_with_Some (k : string) (items : list raw_item) :
  is_Some (last_with k items) <-> In k (map item_id items).
Proof.
  induction items as [|it rest IH]; simpl.
  - split; [intros [? H]; discriminate | intros []].
  - destruct (last_with k rest) eqn:E.
    + split; [intros _; right; apply IH; eauto | intros _; eauto].
    + destruct (String.eqb (item_id it) k) eqn:Ek.
      * apply String.eqb_eq in Ek; split; [auto | eauto].
      * apply String.eqb_neq in Ek; split.
        -- intros [? H]; discriminate.
        -- intros [H|H]; [congruence | apply IH in H as [? H]; discriminate].
Qed.

Lemma last_with_snoc (k : string) (items : list raw_item) (it : raw_item) :
  item_id it = k -> last_with k (items ++ [it]) = Some it.
Proof.
  intros Hk; induction items as [|x rest IH]; simpl.
  - subst k; now rewrite String.eqb_refl.
  - now rewrite IH.
Qed.

Lemma sent_dispatch (i : nat) (notifs : list (raw_item * reason)) (deliver : nat -> post_outcome) :
  sent (dispatch i notifs deliver) = notifs.
Proof.
  revert i; induction notifs as [|[it r] rest IH]; intros i; simpl; [reflexivity|].
  destruct (deliver i); simpl; f_equal; apply IH.
Qed.

Lemma dispatch_no_save (i : nat) (notifs : list (raw_item * reason)) (deliver : nat -> post_outcome) :
  forallb (fun e => negb (is_save e)) (dispatch i notifs deliver) = true.
Proof.
  revert i; induction notifs as [|[it r] rest IH]; intros i; simpl; [reflexivity|].
  destruct (deliver i); simpl; apply IH.
Qed.

Lemma tmp_ne_path (path : string) : path +:+ ".tmp" <> path.
Proof.
  intros H; apply (f_equal String.length) in H.
  rewrite length_append_str in H; simpl in H; lia.
Qed.

Lemma last_cons_fs (g d : fs) (l : list fs) : List.last (g :: l) d = List.last l g.
Proof.
  revert g d; induction l as [|h l IH]; intros g d; [reflexivity|].
  change (List.last (h :: l) d = List.last (h :: l) g).
  now rewrite !IH.
Qed.

Lemma write_steps_other (f : fs) (tmp w data path : string) :
  path <> tmp -> Forall (fun g => g !! path = f !! path) (write_steps f tmp w data).
Proof.
  intros Hne; revert f w; induction data as [|c rest IH]; intros f w; simpl; [constructor|].
  constructor.
  - now rewrite lookup_insert_ne by congruence.
  - eapply Forall_impl; [apply IH|]; intros g Hg; simpl in Hg.
    rewrite Hg; now rewrite lookup_insert_ne by congruence.
Qed.

Lemma write_steps_last (f : fs) (tmp w data : string) :
  f !! tmp = Some w -> List.last (write_steps f tmp w data) f !! tmp = Some (w +:+ data).
Proof.
  revert f w; induction data as [|c rest IH]; intros f w Hf; cbn [write_steps].
  - simpl; now rewrite append_empty_r.
  - rewrite last_cons_fs, IH by apply lookup_insert_eq.
    now rewrite append_assoc_str.
Qed.

Lemma process_items_snd_split (cfg : config) (now : string)
    (prev_items : gmap string item_record) (l1 l2 : list raw_item) (it : raw_item)
    (acc : gmap string item_record) :
  (process_items cfg now prev_items (l1 ++ it :: l2) acc).2 =
  decisions cfg prev_items l1 ++
  option_list (pair it <$> decide (prev_items !! item_id it) (is_in_stock it cfg) cfg) ++
  decisions cfg prev_items l2.
Proof.
  rewrite process_items_snd; unfold decisions; rewrite omap_app; simpl.
  destruct (decide _ _ _); reflexivity.
Qed.

Lemma main_success (cfg : config) (env : option string) (disk : option state_doc)
    (items : list raw_item) (now : string) (deliver : nat -> post_outcome) (w : string) :
  webhook cfg env = Some w ->
  main cfg env disk (inr items) now deliver =
  (EvExtract :: EvSave (Build_state_doc
                  (process_items cfg now (st_items (load_state disk)) items ∅).1 (Some now))
     :: dispatch 0 (decisions cfg (st_items (load_state disk)) items) deliver,
   Some (Build_state_doc
           (process_items cfg now (st_items (load_state disk)) items ∅).1 (Some now))).
Proof.
  intros Hw; unfold main; rewrite Hw. now rewrite process_items_snd.
Qed.

(* ------------------------------------------------------------------ *)
(** ** Claims                                                           *)

(** C1: for an item with a prior record, the loop emits exactly one
    [Restock] decision for it when the prior verdict is not in stock and
    the current one is in stock, and none when the prior verdict is in
    stock (whatever the current verdict). *)
Theorem restock_transition (cfg : config) (now : string)
    (prev_items : gmap string item_record) (l1 l2 : list raw_item) (it : raw_item)
    (p : item_record) (acc : gmap string item_record) :
  prev_items !! item_id it = Some p ->
  (rec_in_stock p = false -> is_in_stock it cfg = true ->
     (process_items cfg now prev_items (l1 ++ it :: l2) acc).2 =
     decisions cfg prev_items l1 ++ [(it, Restock)] ++ decisions cfg prev_items l2) /\
  (rec_in_stock p = true ->
     (process_items cfg now prev_items (l1 ++ it :: l2) acc).2 =
     decisions cfg prev_items l1 ++ decisions cfg prev_items l2).
Proof.
  intros Hp; split; intros Hprev.
  - intros Hcur; rewrite process_items_snd_split, Hp; simpl.
    now rewrite Hprev, Hcur.
  - rewrite process_items_snd_split, Hp; simpl.
    now rewrite Hprev.
Qed.

(** C2 (counterexample): a label that contains an in-stock pattern may
    be classified not in stock. The pattern "ΔΙΑΘΕΣ" lowercases with a
    final sigma ("διαθες", ending in U+03C2), while in "ΔΙΑΘΕΣΙΜΟ" the
    same capital sigma lowercases to U+03C3 ("διαθεσιμο"); the lowercased
    label does not contain the lowercased pattern, and [is_in_stock]
    returns [false]. *)
Lemma greek_pattern_final_sigma :
  let cfg := Build_config None (Some ["ΔΙΑΘΕΣ"]) None None None None None in
  let item := Build_raw_item "u" "n" (Some "u") None (Some "ΔΙΑΘΕΣΙΜΟ") in
  In "ΔΙΑΘΕΣ" (get_default (in_stock_patterns cfg) default_in_stock_patterns) /\
  cp_contains (utf8_decode "ΔΙΑΘΕΣ") (utf8_decode "ΔΙΑΘΕΣΙΜΟ") = true /\
  lower_str "ΔΙΑΘΕΣ" = [948; 953; 945; 952; 949; 962]%Z /\
  lower_str "ΔΙΑΘΕΣΙΜΟ" = [948; 953; 945; 952; 949; 963; 953; 956; 959]%Z /\
  is_in_stock item cfg = false.
Proof. split; [simpl; auto|]. vm_compute; repeat split; reflexivity. Qed.

(** C2 (amended): a label whose lowercase contains the lowercase of a
    configured in-stock pattern is classified in stock, whatever
    sold-out pattern it also contains; in particular a label that
    contains an in-stock pattern in which no capital sigma (U+03A3)
    occurs is classified in stock. *)
Theorem in_stock_priority (item : raw_item) (cfg : config) (p : string) :
  In p (get_default (in_stock_patterns cfg) default_in_stock_patterns) ->
  (cp_contains (lower_str p) (lower_str (get_default (it_stock_text item) "")) = true ->
     is_in_stock item cfg = true) /\
  (~ In 931%Z (utf8_decode p) ->
   cp_contains (utf8_decode p) (utf8_decode (get_default (it_stock_text item) "")) = true ->
     is_in_stock item cfg = true).
Proof.
  intros Hin.
  assert (H : cp_contains (lower_str p) (lower_str (get_default (it_stock_text item) "")) = true ->
              is_in_stock item cfg = true).
  { intros Hc; unfold is_in_stock.
    assert (Hm : first_match
                   (map lower_str (get_default (in_stock_patterns cfg) default_in_stock_patterns))
                   (lower_str (get_default (it_stock_text item) "")) = true).
    { apply first_match_true; exists (lower_str p); split; [now apply in_map | exact Hc]. }
    now rewrite Hm. }
  split; [exact H|].
  intros Hs Hc; apply H; unfold lower_str; now apply contains_lower_nosigma.
Qed.

(** C3 (counterexample): with no webhook in config nor environment the
    page is still fetched and parsed: the webhook test comes after the
    extraction in [main]. *)
Lemma no_webhook_still_extracts :
  webhook cfg_empty None = None /\
  main cfg_empty None None (inr []) "t" (fun _ => Delivered) =
  ([EvExtract; EvLogError MsgNoWebhook], None).
Proof. split; reflexivity. Qed.

(** C3 (amended): with no webhook the run ends after the extraction
    attempt with a logged error (the missing-webhook error when the
    extraction succeeded, the extraction error otherwise), saves nothing,
    sends nothing and leaves the snapshot on disk unchanged. *)
Theorem no_webhook_no_mutation (cfg : config) (env : option string)
    (disk : option state_doc) (extraction : string + list raw_item)
    (now : string) (deliver : nat -> post_outcome) :
  webhook cfg env = None ->
  (main cfg env disk extraction now deliver).2 = disk /\
  forallb (fun e => negb (is_effect e)) (main cfg env disk extraction now deliver).1 = true /\
  (forall items, extraction = inr items ->
     (main cfg env disk extraction now deliver).1 = [EvExtract; EvLogError MsgNoWebhook]) /\
  (forall cause, extraction = inl cause ->
     (main cfg env disk extraction now deliver).1 =
     [EvExtract; EvLogError (MsgFetchFailed cause)]).
Proof.
  intros Hw; unfold main; rewrite Hw.
  destruct extraction as [cause|items]; simpl.
  - split; [reflexivity|]; split; [reflexivity|]; split.
    + intros ? H; discriminate.
    + intros ? H; now injection H as ->.
  - split; [reflexivity|]; split; [reflexivity|]; split.
    + intros ? _; reflexivity.
    + intros ? H; discriminate.
Qed.

(** C4: once the webhook is configured and the extraction succeeded, the
    new snapshot is saved before the first send; it and the list of
    notifications do not depend on the delivery outcomes; every
    notification is attempted whatever the outcomes; nothing is saved
    after the sends and the snapshot on disk is the saved one. *)
Theorem save_before_dispatch (cfg : config) (env : option string)
    (disk : option state_doc) (items : list raw_item) (now : string) (w : string) :
  webhook cfg env = Some w ->
  exists (st' : state_doc) (notifs : list (raw_item * reason)),
    forall deliver : nat -> post_outcome,
      main cfg env disk (inr items) now deliver =
        (EvExtract :: EvSave st' :: dispatch 0 notifs deliver, Some st') /\
      sent (dispatch 0 notifs deliver) = notifs /\
      forallb (fun e => negb (is_save e)) (dispatch 0 notifs deliver) = true.
Proof.
  intros Hw.
  eexists; exists (decisions cfg (st_items (load_state disk)) items); intros deliver.
  split; [apply (main_success _ _ _ _ _ _ w Hw)|].
  split; [apply sent_dispatch | apply dispatch_no_save].
Qed.

(** C5 (counterexample): a whitespace-only label matches no default
    pattern, is not empty, and yet is classified by
    [assume_in_stock_if_no_label], here [true]. *)
Lemma blank_label_uses_assumption :
  let cfg := Build_config None None (Some true) None None None None in
  let item := Build_raw_item "u" "n" (Some "u") None (Some " ") in
  " " <> "" /\
  first_match (map lower_str default_in_stock_patterns) (lower_str " ") = false /\
  first_match (map lower_str default_sold_out_patterns) (lower_str " ") = false /\
  is_in_stock item cfg = true.
Proof. split; [discriminate|]. vm_compute; repeat split; reflexivity. Qed.

(** C5 (amended): for a label that matches no in-stock and no sold-out
    pattern (after lowercasing both), an absent or empty label, or one
    made only of code points that [str.strip()] removes, gives
    [assume_in_stock_if_no_label] (default [false]); a label with any
    other code point gives [false]. *)
Theorem no_pattern_fallback (item : raw_item) (cfg : config) :
  let label := get_default (it_stock_text item) "" in
  (forall p, In p (get_default (in_stock_patterns cfg) default_in_stock_patterns) ->
     cp_contains (lower_str p) (lower_str label) = false) ->
  (forall p, In p (get_default (sold_out_patterns cfg) default_sold_out_patterns) ->
     cp_contains (lower_str p) (lower_str label) = false) ->
  (strip_empty (utf8_decode label) = true ->
     is_in_stock item cfg = get_default (assume_in_stock_if_no_label cfg) false) /\
  (strip_empty (utf8_decode label) = false -> is_in_stock item cfg = false).
Proof.
  intros label Hin Hsold.
  assert (Hi : first_match
                 (map lower_str (get_default (in_stock_patterns cfg) default_in_stock_patterns))
                 (lower_str label) = false).
  { apply first_match_false; intros q Hq; apply in_map_iff in Hq as (p & <- & Hp); auto. }
  assert (Hs : first_match
                 (map lower_str (get_default (sold_out_patterns cfg) default_sold_out_patterns))
                 (lower_str label) = false).
  { apply first_match_false; intros q Hq; apply in_map_iff in Hq as (p & <- & Hp); auto. }
  unfold is_in_stock; fold label; rewrite Hi, Hs.
  assert (E : strip_empty (lower_str label) = strip_empty (utf8_decode label))
    by apply strip_empty_lower.
  rewrite E.
  split; intros H; now rewrite H.
Qed.

(** C6: [save_state] passes only through file-system states where
    [path] holds either its old content or the complete new document,
    and it ends with the new document at [path]; a crash at any step
    leaves one of these states. *)
Theorem save_state_atomic (f : fs) (path data : string) :
  (forall g, In g (save_state_trace f path data) ->
     g !! path = f !! path \/ g !! path = Some data) /\
  List.last (save_state_trace f path data) f !! path = Some data.
Proof.
  assert (Hne : path <> path +:+ ".tmp") by (intros H; now apply (tmp_ne_path path)).
  set (tmp := path +:+ ".tmp") in *.
  set (f1 := <[tmp := ""]> f).
  assert (Hf1 : f1 !! path = f !! path) by (unfold f1; now rewrite lookup_insert_ne by congruence).
  assert (Hlast : List.last (write_steps f1 tmp "" data) f1 !! tmp = Some data)
    by (apply write_steps_last; apply lookup_insert_eq).
  assert (Hrep : replace (List.last (write_steps f1 tmp "" data) f1) tmp path !! path = Some data).
  { unfold replace; rewrite Hlast.
    rewrite lookup_delete_ne by congruence. apply lookup_insert_eq. }
  unfold save_state_trace; fold tmp; fold f1.
  split.
  - intros g [<-|[<-|Hg]]; [now left | now left|].
    apply in_app_or in Hg as [Hg|[<-|[]]]; [|now right].
    left; pose proof (write_steps_other f1 tmp "" data path Hne) as Hall.
    rewrite Forall_forall in Hall; rewrite Hall by (apply list_elem_of_In; exact Hg); exact Hf1.
  - rewrite last_cons_fs, last_cons_fs, last_last. exact Hrep.
Qed.

(** C7: when the fetch or parse raises, the run logs the cause, saves
    nothing, sends nothing and the snapshot on disk is unchanged. *)
Theorem extraction_error_no_mutation (cfg : config) (env : option string)
    (disk : option state_doc) (cause : string) (now : string) (deliver : nat -> post_outcome) :
  main cfg env disk (inl cause) now deliver =
  ([EvExtract; EvLogError (MsgFetchFailed cause)], disk).
Proof. reflexivity. Qed.

(** C8: after a successful run the identities of the saved snapshot are
    exactly the identities extracted in the run, and each one holds the
    record freshly computed from the run (its last occurrence), whether
    or not a notification fired; identities absent from the extraction
    are gone. *)
Theorem snapshot_identities (cfg : config) (env : option string)
    (disk : option state_doc) (items : list raw_item) (now : string)
    (deliver : nat -> post_outcome) (w : string) :
  webhook cfg env = Some w ->
  exists st' : state_doc,
    (main cfg env disk (inr items) now deliver).2 = Some st' /\
    dom (st_items st') = list_to_set (map item_id items) /\
    (forall k, st_items st' !! k =
       (fun it => mk_record it (is_in_stock it cfg) now) <$> last_with k items).
Proof.
  intros Hw; rewrite (main_success _ _ _ _ _ _ w Hw); eexists; split; [reflexivity|].
  assert (Hk : forall k,
    (process_items cfg now (st_items (load_state disk)) items ∅).1 !! k =
    (fun it => mk_record it (is_in_stock it cfg) now) <$> last_with k items).
  { intros k; rewrite process_items_fst; destruct (last_with k items); reflexivity. }
  simpl; split; [|exact Hk].
  apply set_eq; intros k.
  rewrite elem_of_dom, elem_of_list_to_set, list_elem_of_In, <- last_with_Some, Hk.
  destruct (last_with k items); simpl; split; intros [? H]; eauto; discriminate.
Qed.

(** C9: for an item with no prior record, the loop emits
    [NewInStock] when it is in stock and [notify_new_in_stock] holds
    (default [true]); otherwise [NewItem] when [notify_new] holds
    (default [false]); otherwise nothing. *)
Theorem new_item_policy (cfg : config) (now : string)
    (prev_items : gmap string item_record) (l1 l2 : list raw_item) (it : raw_item)
    (acc : gmap string item_record) :
  prev_items !! item_id it = None ->
  let out := (process_items cfg now prev_items (l1 ++ it :: l2) acc).2 in
  let around x := decisions cfg prev_items l1 ++ x ++ decisions cfg prev_items l2 in
  (is_in_stock it cfg = true -> get_default (notify_new_in_stock cfg) true = true ->
     out = around [(it, NewInStock)]) /\
  (is_in_stock it cfg && get_default (notify_new_in_stock cfg) true = false ->
     get_default (notify_new cfg) false = true ->
     out = around [(it, NewItem)]) /\
  (is_in_stock it cfg && get_default (notify_new_in_stock cfg) true = false ->
     get_default (notify_new cfg) false = false ->
     out = around []).
Proof.
  intros Hp out around; unfold out, around; rewrite !process_items_snd_split, Hp; simpl.
  repeat split.
  - intros H1 H2; now rewrite H1, H2.
  - intros H1 H2; now rewrite H1, H2.
  - intros H1 H2; now rewrite H1, H2.
Qed.

(** C10: within one run every occurrence of an item is decided against
    the snapshot loaded at the start (the decisions are those of
    [decisions], computed item by item from [prev_items] alone), and the
    saved record of an identity is the one of its last occurrence. *)
Theorem duplicates_decided_independently (cfg : config) (env : option string)
    (disk : option state_doc) (items : list raw_item) (now : string)
    (deliver : nat -> post_outcome) (w : string) :
  webhook cfg env = Some w ->
  exists st' : state_doc,
    main cfg env disk (inr items) now deliver =
      (EvExtract :: EvSave st' ::
         dispatch 0 (decisions cfg (st_items (load_state disk)) items) deliver,
       Some st') /\
    (forall l it, items = l ++ [it] ->
       st_items st' !! item_id it = Some (mk_record it (is_in_stock it cfg) now)) /\
    (forall k, st_items st' !! k =
       (fun it => mk_record it (is_in_stock it cfg) now) <$> last_with k items).
Proof.
  intros Hw; rewrite (main_success _ _ _ _ _ _ w Hw); eexists; split; [reflexivity|].
  simpl; split.
  - intros l it ->; rewrite process_items_fst, last_with_snoc; reflexivity.
  - intros k; rewrite process_items_fst; destruct (last_with k items); reflexivity.
Qed.

(** Two occurrences of one sold-out identity, both in stock, give two
    restock notifications in one run; the saved record is the second. *)
Example duplicate_identity_two_restocks :
  let old := {| rec_name := "A"; rec_url := Some "a"; rec_image := None;
                rec_stock_text := Some "sold out"; rec_in_stock := false;
                rec_last_seen := "t0" |} in
  let disk := Some {| st_items := <["a" := old]> ∅; st_last_checked := Some "t0" |} in
  let a1 := Build_raw_item "a" "A" (Some "a") None (Some "add to cart") in
  let a2 := Build_raw_item "a" "A2" (Some "a") None (Some "在庫あり") in
  let cfg := Build_config None None None None None (Some "w") None in
  let res := main cfg None disk (inr [a1; a2]) "t1" (fun _ => Delivered) in
  sent res.1 = [(a1, Restock); (a2, Restock)] /\
  option_map (fun s => st_items s !! "a") res.2 = Some (Some (mk_record a2 true "t1")).
Proof. split; vm_compute; reflexivity. Qed.

(* ------------------------------------------------------------------ *)
(** ** Witnesses                                                        *)

Lemma restock_transition_witness :
  sample_prev !! item_id sample_a1 = Some sample_old /\
  (process_items cfg_empty "t" sample_prev [sample_a1] ∅).2 = [(sample_a1, Restock)].
Proof.
  split; [reflexivity|].
  destruct (restock_transition cfg_empty "t" sample_prev [] [] sample_a1 sample_old ∅
              eq_refl) as [H _].
  exact (H eq_refl eq_refl).
Defined.

Lemma in_stock_priority_witness :
  is_in_stock (Build_raw_item "u" "n" None None (Some "SOLD OUT - Add To Cart")) cfg_empty = true /\
  is_in_stock (Build_raw_item "u" "n" None None (Some "売り切れ / 在庫あり")) cfg_empty = true.
Proof.
  split.
  - apply (proj1 (in_stock_priority _ cfg_empty "add to cart" ltac:(simpl; auto))).
    vm_compute; reflexivity.
  - apply (proj2 (in_stock_priority _ cfg_empty "在庫あり" ltac:(simpl; auto))).
    + vm_compute; intros H; repeat destruct H as [H|H]; try discriminate; contradiction.
    + vm_compute; reflexivity.
Defined.

Lemma no_webhook_no_mutation_witness :
  (main cfg_empty None (Some (Build_state_doc sample_prev None)) (inr [sample_a1]) "t"
     (fun _ => Delivered)).2 = Some (Build_state_doc sample_prev None).
Proof.
  exact (proj1 (no_webhook_no_mutation cfg_empty None _ (inr [sample_a1]) "t" _ eq_refl)).
Defined.

Lemma save_before_dispatch_witness :
  exists (st' : state_doc) (notifs : list (raw_item * reason)),
    forall deliver : nat -> post_outcome,
      main cfg_webhook None None (inr [sample_a1]) "t" deliver =
        (EvExtract :: EvSave st' :: dispatch 0 notifs deliver, Some st') /\
      sent (dispatch 0 notifs deliver) = notifs /\
      forallb (fun e => negb (is_save e)) (dispatch 0 notifs deliver) = true.
Proof.
  exact (save_before_dispatch cfg_webhook None None [sample_a1] "t" "w" eq_refl).
Defined.

Lemma no_pattern_fallback_witness :
  is_in_stock (Build_raw_item "u" "n" None None (Some "　")) cfg_webhook = true.
Proof.
  destruct (no_pattern_fallback (Build_raw_item "u" "n" None None (Some "　")) cfg_webhook)
    as [H _].
  - intros p Hp; simpl in Hp; repeat destruct Hp as [<-|Hp]; try contradiction;
      vm_compute; reflexivity.
  - intros p Hp; simpl in Hp; repeat destruct Hp as [<-|Hp]; try contradiction;
      vm_compute; reflexivity.
  - apply H; vm_compute; reflexivity.
Defined.

Lemma save_state_atomic_witness :
  List.last (save_state_trace (<["state.json" := "old"]> ∅) "state.json" "new")
    ∅ !! "state.json" = Some "new".
Proof.
  exact (proj2 (save_state_atomic (<["state.json" := "old"]> ∅) "state.json" "new")).
Defined.

Lemma snapshot_identities_witness :
  exists st' : state_doc,
    (main cfg_webhook None (Some (Build_state_doc sample_prev None))
       (inr [sample_new]) "t" (fun _ => Delivered)).2 = Some st' /\
    dom (st_items st') = list_to_set (map item_id [sample_new]) /\
    (forall k, st_items st' !! k =
       (fun it => mk_record it (is_in_stock it cfg_webhook) "t") <$> last_with k [sample_new]).
Proof.
  exact (snapshot_identities cfg_webhook None _ [sample_new] "t" _ "w" eq_refl).
Defined.

Lemma new_item_policy_witness :
  (process_items cfg_webhook "t" sample_prev [sample_new] ∅).2 = [(sample_new, NewInStock)].
Proof.
  destruct (new_item_policy cfg_webhook "t" sample_prev [] [] sample_new ∅ eq_refl)
    as [H _].
  exact (H eq_refl eq_refl).
Defined.

Lemma duplicates_decided_independently_witness :
  exists st' : state_doc,
    main cfg_webhook None (Some (Build_state_doc sample_prev None))
      (inr [sample_a1; sample_a1]) "t" (fun _ => Delivered) =
      (EvExtract :: EvSave st' ::
         dispatch 0 (decisions cfg_webhook sample_prev [sample_a1; sample_a1]) (fun _ => Delivered),
       Some st') /\
    (forall l it, [sample_a1; sample_a1] = l ++ [it] ->
       st_items st' !! item_id it = Some (mk_record it (is_in_stock it cfg_webhook) "t")) /\
    (forall k, st_items st' !! k =
       (fun it => mk_record it (is_in_stock it cfg_webhook) "t") <$>
         last_with k [sample_a1; sample_a1]).
Proof.
  exact (duplicates_decided_independently cfg_webhook None
           (Some (Build_state_doc sample_prev None)) [sample_a1; sample_a1] "t" _ "w" eq_refl).
Defined.

(* ------------------------------------------------------------------ *)
(** ** Further properties: extraction                                  *)

Lemma truthy_true (o : option string) :
  truthy o = true <-> exists s, o = Some s /\ s <> "".
Proof.
  destruct o as [s|]; simpl; split.
  - intros H; exists s; split; [reflexivity|].
    intros ->; discriminate.
  - intros (t & [= <-] & Ht); destruct (String.eqb_spec s ""); [contradiction | reflexivity].
  - discriminate.
  - intros (? & ? & _); discriminate.
Qed.

Lemma build_item_wf (n u i st : option string) (it : raw_item) :
  build_item n u i st = Some it ->
  it_id it <> "" /\ item_id it = it_id it /\ it_name it <> "".
Proof.
  unfold build_item, item_id.
  destruct (truthy n) eqn:Hn, (truthy u) eqn:Hu; simpl; intros H; try discriminate;
    injection H as <-; simpl;
    repeat match goal with
    | Ht : truthy _ = true |- _ => apply truthy_true in Ht as (? & -> & ?)
    end; simpl;
    repeat match goal with
    | |- context [String.eqb ?s ""] => destruct (String.eqb_spec s "")
    end; repeat split; try congruence; discriminate.
Qed.

Lemma parse_omap_wf (f : element -> option raw_item) (els : list element) :
  (forall el it, f el = Some it -> it_id it <> "" /\ item_id it = it_id it /\ it_name it <> "") ->
  Forall (fun it => item_id it <> "" /\ it_name it <> "") (omap f els).
Proof.
  intros Hf; induction els as [|el els IH]; simpl; [constructor|].
  destruct (f el) eqn:E; [|exact IH].
  constructor; [|exact IH].
  destruct (Hf _ _ E) as (? & -> & ?); auto.
Qed.

(** X2: every item either extractor returns has a non-empty identity
    and a non-empty display name. *)
Theorem parsed_items_wf (sel : selectors) (els : list element) :
  Forall (fun it => item_id it <> "" /\ it_name it <> "") (parse_with_bs4 sel els) /\
  Forall (fun it => item_id it <> "" /\ it_name it <> "") (parse_with_playwright sel els).
Proof.
  split; apply parse_omap_wf; intros el it.
  - unfold parse_element_bs4; destruct (bs4_fields sel el) as [[[n u] i] st].
    apply build_item_wf.
  - unfold parse_element_pw; destruct (pw_fields sel el) as [[[[n u] i] st]|]; [|discriminate].
    apply build_item_wf.
Qed.

(** X5: when the link lookup raises after a non-empty name was read,
    the static extractor still emits the element, identified by its
    name and with no link, image or label; the rendered one skips it. *)
Theorem bs4_keeps_partial_element (sel : selectors) (el : element) (n : string) :
  name_sel sel = true -> url_sel sel = true ->
  el_name el = Found (Some n) -> n <> "" -> el_url el = Raises ->
  parse_element_bs4 sel el =
    Some {| it_id := n; it_name := n; it_url := None; it_image := None;
            it_stock_text := None |} /\
  parse_element_pw sel el = None.
Proof.
  intros Hs Hu Hn Hne Hr.
  unfold parse_element_bs4, parse_element_pw, bs4_fields, pw_fields, read_field.
  rewrite Hs, Hu, Hn, Hr; simpl.
  unfold build_item; simpl.
  destruct (String.eqb_spec n ""); [contradiction|]; split; reflexivity.
Qed.

(* ------------------------------------------------------------------ *)
(** ** Further properties: runs of [main]                              *)

Lemma last_with_NoDup (items : list raw_item) (it : raw_item) :
  NoDup (map item_id items) -> In it items -> last_with (item_id it) items = Some it.
Proof.
  induction items as [|x rest IH]; simpl; [intros _ []|].
  intros Hnd Hin; apply NoDup_cons in Hnd as [Hx Hnd].
  destruct Hin as [<-|Hin].
  - destruct (last_with (item_id x) rest) eqn:E.
    + exfalso; apply Hx, list_elem_of_In, last_with_Some; rewrite E; eauto.
    + now rewrite String.eqb_refl.
  - now rewrite IH.
Qed.

Lemma omap_all_none {A B} (f : A -> option B) (l : list A) :
  (forall x, In x l -> f x = None) -> omap f l = [].
Proof.
  induction l as [|x l IH]; intros H; [reflexivity|]; csimpl.
  rewrite (H x (or_introl eq_refl)); apply IH; intros y Hy; apply H; now right.
Qed.

(** X6: a second run on the same extraction, with the same
    configuration and distinct identities, sends no notification,
    whatever the previous snapshot and the delivery outcomes were. *)
Theorem second_run_quiet (cfg : config) (env : option string) (disk : option state_doc)
    (items : list raw_item) (now now' : string) (deliver deliver' : nat -> post_outcome)
    (w : string) (st' : state_doc) :
  webhook cfg env = Some w ->
  NoDup (map item_id items) ->
  (main cfg env disk (inr items) now deliver).2 = Some st' ->
  sent (main cfg env (Some st') (inr items) now' deliver').1 = [].
Proof.
  intros Hw Hnd Hrun.
  rewrite (main_success _ _ _ _ _ _ w Hw) in Hrun; injection Hrun as <-.
  rewrite (main_success _ _ _ _ _ _ w Hw); simpl; rewrite sent_dispatch.
  unfold decisions; apply omap_all_none; intros it Hin.
  rewrite process_items_fst, (last_with_NoDup _ _ Hnd Hin); simpl.
  destruct (is_in_stock it cfg); reflexivity.
Qed.

(** X7: on the first run (no snapshot on disk), with
    [notify_new_in_stock] on and [notify_new] off (the defaults), the
    notifications are the in-stock items, in extraction order, each with
    the reason "new item, in stock". *)
Theorem first_run_notifies_in_stock (cfg : config) (env : option string)
    (items : list raw_item) (now : string) (deliver : nat -> post_outcome) (w : string) :
  webhook cfg env = Some w ->
  get_default (notify_new_in_stock cfg) true = true ->
  get_default (notify_new cfg) false = false ->
  sent (main cfg env None (inr items) now deliver).1 =
  map (fun it => (it, NewInStock)) (List.filter (fun it => is_in_stock it cfg) items).
Proof.
  intros Hw H1 H2; rewrite (main_success _ _ _ _ _ _ w Hw); simpl; rewrite sent_dispatch.
  unfold decisions; induction items as [|it items IH]; [reflexivity|]; csimpl.
  rewrite IH, lookup_empty; unfold decide; rewrite H1, H2.
  destruct (is_in_stock it cfg); reflexivity.
Qed.

(** X8: an empty extraction is a valid run: it saves an empty item map
    stamped with the run time and sends nothing. *)
Theorem empty_extraction_run (cfg : config) (env : option string) (disk : option state_doc)
    (now : string) (deliver : nat -> post_outcome) (w : string) :
  webhook cfg env = Some w ->
  main cfg env disk (inr []) now deliver =
  ([EvExtract; EvSave {| st_items := ∅; st_last_checked := Some now |}],
   Some {| st_items := ∅; st_last_checked := Some now |}).
Proof. intros Hw; unfold main; rewrite Hw; reflexivity. Qed.

(** X10: an identity absent from one run's extraction has no prior
    record in the next run: each of its occurrences there is decided as
    a new item. *)
Theorem vanished_item_is_new (cfg1 cfg2 : config) (env1 env2 : option string)
    (disk : option state_doc) (items1 l1 l2 : list raw_item) (it : raw_item)
    (now1 now2 : string) (deliver1 deliver2 : nat -> post_outcome) (w1 w2 : string)
    (st' : state_doc) :
  webhook cfg1 env1 = Some w1 -> webhook cfg2 env2 = Some w2 ->
  (main cfg1 env1 disk (inr items1) now1 deliver1).2 = Some st' ->
  ~ In (item_id it) (map item_id items1) ->
  sent (main cfg2 env2 (Some st') (inr (l1 ++ it :: l2)) now2 deliver2).1 =
  decisions cfg2 (st_items st') l1 ++
  option_list (pair it <$> decide None (is_in_stock it cfg2) cfg2) ++
  decisions cfg2 (st_items st') l2.
Proof.
  intros Hw1 Hw2 Hrun Hk.
  rewrite (main_success _ _ _ _ _ _ w1 Hw1) in Hrun; injection Hrun as <-.
  rewrite (main_success _ _ _ _ _ _ w2 Hw2); simpl; rewrite sent_dispatch.
  rewrite <- (process_items_snd cfg2 now2 _ _ ∅), process_items_snd_split.
  rewrite process_items_fst.
  destruct (last_with (item_id it) items1) eqn:E; [|reflexivity].
  exfalso; apply Hk, last_with_Some; rewrite E; eauto.
Qed.

(** X11: if the last occurrence of an identity in one run was
    classified not in stock, each occurrence of it classified in stock
    in the next run yields exactly one restock notification. *)
Theorem restock_across_runs (cfg1 cfg2 : config) (env1 env2 : option string)
    (disk : option state_doc) (items1 l1 l2 : list raw_item) (it1 it2 : raw_item)
    (now1 now2 : string) (deliver1 deliver2 : nat -> post_outcome) (w1 w2 : string)
    (st' : state_doc) :
  webhook cfg1 env1 = Some w1 -> webhook cfg2 env2 = Some w2 ->
  (main cfg1 env1 disk (inr items1) now1 deliver1).2 = Some st' ->
  last_with (item_id it2) items1 = Some it1 ->
  is_in_stock it1 cfg1 = false -> is_in_stock it2 cfg2 = true ->
  sent (main cfg2 env2 (Some st') (inr (l1 ++ it2 :: l2)) now2 deliver2).1 =
  decisions cfg2 (st_items st') l1 ++ [(it2, Restock)] ++ decisions cfg2 (st_items st') l2.
Proof.
  intros Hw1 Hw2 Hrun Hlast H1 H2.
  rewrite (main_success _ _ _ _ _ _ w1 Hw1) in Hrun; injection Hrun as <-.
  rewrite (main_success _ _ _ _ _ _ w2 Hw2); simpl; rewrite sent_dispatch.
  rewrite <- (process_items_snd cfg2 now2 _ _ ∅), process_items_snd_split.
  rewrite process_items_fst, Hlast, H1, H2; reflexivity.
Qed.

(* ------------------------------------------------------------------ *)
(** ** Further properties: notification and selector_inspector.py      *)

(** X13: [short s n] is never longer than [n] code points plus the
    16-code-point marker, and it starts with the first [n] code points
    of [s] (all of [s] when it fits). *)
Theorem short_bounds (s : list nat) (n : nat) :
  (length (short s n) <= n + 16)%nat /\
  take n (short s n) = take n s /\
  ((length s <= n)%nat -> short s n = s).
Proof.
  unfold short; destruct (Nat.leb_spec (length s) n) as [Hle|Hgt].
  - split; [lia | split; [reflexivity | intros _; reflexivity]].
  - split; [|split; [|intros; lia]].
    + rewrite length_app, length_take; simpl; lia.
    + rewrite take_app, length_take, Nat.min_l by lia.
      rewrite Nat.sub_diag, take_0, app_nil_r, take_take, Nat.min_id; reflexivity.
Qed.

Lemma insert_by_count_shape (x : string * nat) (acc : list (string * nat)) :
  exists rest, insert_by_count x acc =
    match acc with
    | [] => x :: rest
    | y :: _ => (if y.2 <? x.2 then x else y) :: rest
    end.
Proof.
  destruct acc as [|y acc]; simpl; [eauto|].
  destruct (y.2 <? x.2); eauto.
Qed.

Lemma sort_by_count_head (l : list (string * nat)) :
  (sort_by_count l = [] <-> l = []) /\
  (forall c k rest, sort_by_count l = (c, k) :: rest ->
     exists pre post, l = pre ++ (c, k) :: post /\
       Forall (fun p => p.2 < k)%nat pre /\ Forall (fun p => p.2 <= k)%nat post).
Proof.
  induction l as [|x l IH] using rev_ind.
  - split; [tauto|]; intros ? ? ? H; discriminate.
  - unfold sort_by_count in *; rewrite fold_left_app; simpl.
    destruct IH as [IHnil IHhd].
    assert (Hne : l ++ [x] <> []) by (intros H; apply app_eq_nil in H as [_ H]; discriminate).
    destruct (fold_left (fun acc y => insert_by_count y acc) l []) as [|[c0 k0] acc] eqn:E.
    + rewrite (proj1 IHnil eq_refl); simpl.
      split; [split; discriminate|].
      intros c k rest [= Hx _]; subst x; exists [], []; simpl; auto.
    + destruct (IHhd c0 k0 acc eq_refl) as (pre & post & Hl & Hpre & Hpost).
      simpl; destruct (Nat.ltb_spec k0 x.2) as [Hlt|Hge].
      * split; [split; [discriminate | intros H; contradiction]|].
        intros c k rest Heq; injection Heq as Hx _; subst x; simpl in Hlt.
        exists l, []; split; [reflexivity|].
        split; [|constructor]. rewrite Hl, Forall_app, Forall_cons; simpl.
        split; [eapply Forall_impl; [exact Hpre|]; simpl; intros; lia|].
        split; [lia|]. eapply Forall_impl; [exact Hpost|]; simpl; intros; lia.
      * split; [split; [discriminate | intros H; contradiction]|].
        intros c k rest Heq; injection Heq as <- <- _; exists pre, (post ++ [x]).
        split; [rewrite Hl, <- app_assoc; reflexivity|].
        split; [exact Hpre|]. apply Forall_app; split; [exact Hpost|].
        constructor; [simpl; lia | constructor].
Qed.

(** X15: the inspector's top selector is absent exactly when no
    candidate matched; otherwise it is the first guess, in candidate
    order, with the largest element count (earlier guesses have
    strictly fewer elements, later ones no more). *)
Theorem top_selector_first_max (query : string -> option nat) :
  let g := guess_item_selectors query in
  (top_selector g = None <-> g = []) /\
  (forall c, top_selector g = Some c ->
     exists k pre post, g = pre ++ (c, k) :: post /\
       Forall (fun p => p.2 < k)%nat pre /\ Forall (fun p => p.2 <= k)%nat post).
Proof.
  intros g; destruct (sort_by_count_head g) as [Hnil Hhd]; unfold top_selector.
  split.
  - rewrite <- Hnil; destruct (sort_by_count g) as [|[c k] r]; split; congruence.
  - intros c Hc; destruct (sort_by_count g) as [|[c' k] r] eqn:E; [discriminate|].
    injection Hc as <-; destruct (Hhd c' k r eq_refl) as (pre & post & H); eauto.
Qed.

(* ------------------------------------------------------------------ *)
(** ** Witnesses of the further properties                             *)

Lemma second_run_quiet_witness :
  sent (main cfg_webhook None
          (Some {| st_items := <["a" := mk_record sample_a1 true "t"]> ∅;
                   st_last_checked := Some "t" |})
          (inr [sample_a1]) "t2" (fun _ => Delivered)).1 = [].
Proof.
  apply (second_run_quiet cfg_webhook None None [sample_a1] "t" "t2" (fun _ => Delivered)
           (fun _ => Delivered) "w"); [reflexivity | repeat constructor; intros H; inversion H | reflexivity].
Defined.

Lemma first_run_notifies_in_stock_witness :
  sent (main cfg_webhook None None (inr [sample_new; sample_a0]) "t" (fun _ => PostFailed)).1 =
  [(sample_new, NewInStock)].
Proof.
  rewrite (first_run_notifies_in_stock cfg_webhook None [sample_new; sample_a0] "t"
             (fun _ => PostFailed) "w" eq_refl eq_refl eq_refl).
  reflexivity.
Defined.

Lemma empty_extraction_run_witness :
  (main cfg_webhook None (Some {| st_items := sample_prev; st_last_checked := None |})
     (inr []) "t" (fun _ => Delivered)).2 =
  Some {| st_items := ∅; st_last_checked := Some "t" |}.
Proof.
  rewrite (empty_extraction_run cfg_webhook None _ "t" _ "w" eq_refl); reflexivity.
Defined.

Lemma vanished_item_is_new_witness :
  sent (main cfg_webhook None
          (Some {| st_items := <["b" := mk_record sample_new true "t1"]> ∅;
                   st_last_checked := Some "t1" |})
          (inr ([] ++ sample_a1 :: [])) "t2" (fun _ => Delivered)).1 =
  [(sample_a1, NewInStock)].
Proof.
  refine (eq_trans (vanished_item_is_new cfg_webhook cfg_webhook None None None [sample_new] [] []
             sample_a1 "t1" "t2" (fun _ => Delivered) (fun _ => Delivered) "w" "w"
             {| st_items := <["b" := mk_record sample_new true "t1"]> ∅;
                st_last_checked := Some "t1" |}
             eq_refl eq_refl _ _) _).
  all: first [vm_compute; reflexivity | simpl; intros [H|[]]; discriminate].
Defined.

Lemma restock_across_runs_witness :
  sent (main cfg_webhook None
          (Some {| st_items := <["a" := mk_record sample_a0 false "t1"]> ∅;
                   st_last_checked := Some "t1" |})
          (inr ([] ++ sample_a1 :: [])) "t2" (fun _ => Delivered)).1 =
  [(sample_a1, Restock)].
Proof.
  refine (eq_trans (restock_across_runs cfg_webhook cfg_webhook None None None [sample_a0] [] []
             sample_a0 sample_a1 "t1" "t2" (fun _ => Delivered) (fun _ => Delivered) "w" "w"
             {| st_items := <["a" := mk_record sample_a0 false "t1"]> ∅;
                st_last_checked := Some "t1" |}
             eq_refl eq_refl _ eq_refl _ _) _).
  all: vm_compute; reflexivity.
Defined.

Lemma short_bounds_witness : short [1; 2; 3] 5 = [1; 2; 3].
Proof. apply (proj2 (proj2 (short_bounds [1; 2; 3] 5))); simpl; lia. Defined.

Lemma top_selector_first_max_witness :
  exists k pre post,
    guess_item_selectors (fun c => if String.eqb c ".product-card" then Some 4 else Some 1) =
    pre ++ (".product-card", k) :: post /\
    Forall (fun p => p.2 < k)%nat pre /\ Forall (fun p => p.2 <= k)%nat post.
Proof.
  exact (proj2 (top_selector_first_max
                  (fun c => if String.eqb c ".product-card" then Some 4 else Some 1))
               ".product-card" eq_refl).
Defined.
